(** * The pailgun server of pantsd: a shallow embedding and its properties

    Source: [src/python/pants/pantsd/pailgun_server.py].

    The server is effectful Python code: it talks to sockets, to the nailgun
    wire codec, to a runner and to a lock.  Every such call is an _event_ of
    a trace, and its outcome (a value or a raised exception) is read from a
    [World].  A computation is a pair of the trace it produced and of its
    result; [try]/[except]/[else]/[finally] and [with] are combinators on
    such pairs. *)

From Stdlib Require Import QArith Qminmax.
From stdpp Require Import base list strings gmap.

Close Scope Q_scope.
Open Scope string_scope.
Open Scope list_scope.

(** ** Python exceptions *)

(** The part of the exception hierarchy the code distinguishes:
    [except Exception] does not catch [SystemExit], [KeyboardInterrupt] or
    [GeneratorExit], which derive from [BaseException] only;
    [socket.error] is a subclass of [Exception]. *)
Inductive exc_class : Type :=
  | BaseExceptionOnly
  | SocketError
  | OtherException.

(** [exc_truthy] is the truth value of the instance, as [if exc:] tests
    it: true unless the class of the exception defines [__bool__] or
    [__len__] otherwise. *)
Record PyExc : Type := mkExc {
  exc_cls : exc_class;
  exc_name : string;
  exc_msg : string;
  exc_truthy : bool
}.

Definition is_Exception (e : PyExc) : bool :=
  match exc_cls e with
  | BaseExceptionOnly => false
  | SocketError | OtherException => true
  end.

Definition is_socket_error (e : PyExc) : bool :=
  match exc_cls e with
  | SocketError => true
  | BaseExceptionOnly | OtherException => false
  end.

Definition newline : string := String (Ascii.ascii_of_nat 10) EmptyString.

(** [traceback.format_exc()] inside an [except] block: the header line,
    the stack entries (not modelled) and the line of the exception. *)
Definition format_exc (e : PyExc) : string :=
  "Traceback (most recent call last):" +:+ newline
  +:+ exc_name e +:+ ": " +:+ exc_msg e +:+ newline.

(** ** Values *)

(** A socket object, identified by its file descriptor. *)
Definition Socket : Type := nat.
(** The [(host, port)] pair of a peer or of a bound socket. *)
Definition Address : Type := (string * Z)%type.
(** The object a runner factory returns. *)
Definition Runner : Type := nat.
(** The four fields of a decoded nailgun request. *)
Definition NailgunRequest : Type :=
  (string * string * list string * gmap string string)%type.

(** ** Events *)

Inductive event : Type :=
  (* pants.engine.native / logging / profiling *)
  | EvNativeOverrideLogging
  | EvLogInfo (msg : string)
  | EvLogDebug (fmt : string) (environment : gmap string string)
  | EvProfileEnable (path : string)
  | EvProfileDump (path : string)
  (* NailgunProtocol *)
  | EvParseRequest (sock : Socket)
  | EvSendStderr (sock : Socket) (text : string)
  | EvSendExit (sock : Socket) (code : Z)
  (* the runner and the completion callback *)
  | EvRunnerFactory (sock : Socket) (arguments : list string)
                    (environment : gmap string string)
  | EvRun (r : Runner)
  | EvRequestComplete
  (* sockets *)
  | EvSocketCreate (fd : Socket)
  | EvSetReuseAddr (fd : Socket)
  | EvBind (fd : Socket) (addr : Address)
  | EvGetSockName (fd : Socket)
  | EvListen (fd : Socket) (backlog : Z)
  | EvGetTimeout (fd : Socket)
  | EvSelect (fd : Socket) (timeout : option Q)
  | EvAccept (fd : Socket)
  | EvSockShutdown (sock : Socket)
  | EvSockClose (sock : Socket)
  (* socketserver: the server's own handle_error prints a traceback *)
  | EvServerHandleError (sock : Socket) (client : Address)
  (* the lifecycle lock and threads *)
  | EvLockAcquire
  | EvLockRelease
  | EvThreadStart (name : string) (daemon : bool)
                  (sock : Socket) (client : Address).

(** ** Results and computations *)

Inductive result (A : Type) : Type :=
  | Ret (a : A)
  | Raise (e : PyExc).
Arguments Ret {A} a.
Arguments Raise {A} e.

Definition M (A : Type) : Type := (list event * result A)%type.

Definition trace {A} (m : M A) : list event := fst m.
Definition outcome {A} (m : M A) : result A := snd m.

Definition raise {A} (e : PyExc) : M A := ([], Raise e).

(** Sequencing: the second computation runs only if the first returned. *)
#[global] Instance M_ret : MRet M := fun A (a : A) => ([], Ret a).

#[global] Instance M_bind : MBind M := fun A B (k : A -> M B) (m : M A) =>
  match m with
  | (t1, Ret a) => let '(t2, r) := k a in (t1 ++ t2, r)
  | (t1, Raise e) => (t1, Raise e)
  end.

(** A call of an external operation that returns a value or raises. *)
Definition call {A} (ev : event) (r : result A) : M A := ([ev], r).

(** A call of an external operation that returns [None] or raises. *)
Definition call_ (ev : event) (o : option PyExc) : M unit :=
  ([ev], match o with None => Ret tt | Some e => Raise e end).

(** A call that cannot fail. *)
Definition emit (ev : event) : M unit := ([ev], Ret tt).

(** [try: body finally: cleanup].  The cleanup runs whatever the body did;
    an exception of the cleanup replaces the outcome of the body. *)
Definition try_finally {A} (body : M A) (cleanup : M unit) : M A :=
  let '(t1, r1) := body in
  let '(t2, r2) := cleanup in
  (t1 ++ t2, match r2 with Ret _ => r1 | Raise e => Raise e end).

(** [try: body except C as e: handler(e) else: orelse(v)], where [catches]
    decides whether an exception is an instance of the class [C].
    Exceptions that are not caught pass through. *)
Definition try_except_else {A B} (catches : PyExc -> bool)
    (body : M A) (handler : PyExc -> M B) (orelse : A -> M B) : M B :=
  match body with
  | (t1, Ret a) => let '(t2, r) := orelse a in (t1 ++ t2, r)
  | (t1, Raise e) =>
      if catches e
      then let '(t2, r) := handler e in (t1 ++ t2, r)
      else (t1, Raise e)
  end.

(** [try: body except C as e: handler(e)]. *)
Definition try_except {A} (catches : PyExc -> bool)
    (body : M A) (handler : PyExc -> M A) : M A :=
  try_except_else catches body handler mret.

(** ** The world: outcomes of the calls the server makes *)

Record World : Type := mkWorld {
  (* NailgunProtocol.parse_request(sock) *)
  parse_request : Socket -> result NailgunRequest;
  (* NailgunProtocol.send_stderr(sock, text) *)
  send_stderr : Socket -> string -> option PyExc;
  (* NailgunProtocol.send_exit_with_code(sock, code) *)
  send_exit_with_code : Socket -> Z -> option PyExc;
  (* server.runner_factory(sock, arguments, environment) *)
  runner_factory :
    Socket -> list string -> gmap string string -> result Runner;
  (* runner.run() *)
  runner_run : Runner -> option PyExc;
  (* server.request_complete_callback() *)
  request_complete_callback : option PyExc;
  (* request.shutdown(SHUT_WR): true when it raises socket.error *)
  shutdown_fails : Socket -> bool;
  (* socket.socket(...): the descriptor of the new socket *)
  new_socket : Socket;
  (* socket.bind(addr) and socket.listen(n) *)
  sock_bind : Socket -> Address -> option PyExc;
  sock_listen : Socket -> option PyExc;
  (* socket.getsockname() *)
  getsockname : Socket -> Address;
  (* socket.gettimeout() *)
  gettimeout : Socket -> option Q;
  (* safe_select([server], [], [], timeout) *)
  safe_select :
    Socket -> option Q -> result (list Socket * list Socket * list Socket);
  (* socket.accept() *)
  sock_accept : Socket -> result (Socket * Address);
  (* Thread.start() *)
  thread_start : option PyExc
}.

(** ** Python built-ins *)

(** [min(a, b)]: the first argument unless the second is strictly less. *)
Definition py_min (a b : Q) : Q :=
  if Qle_bool a b then a else b.

(** [sep.join(l)]. *)
Definition join (sep : string) (l : list string) : string :=
  String.concat sep l.

(** [not l] for a list. *)
Definition py_not {A} (l : list A) : bool :=
  match l with [] => true | _ :: _ => false end.

(** ** Servers and handler classes *)

(** The methods of a request handler class; [self.request] is passed as
    the socket argument. *)
Record HandlerClass : Type := mkHandlerClass {
  setup : World -> Socket -> M unit;
  handle : World -> Socket -> M unit;
  finish : World -> Socket -> M unit;
  handle_error : World -> Socket -> option PyExc -> M unit
}.

(** The attributes of a [PailgunServer] instance the methods read. *)
Record Server : Type := mkServer {
  server_address : Address;
  RequestHandlerClass : HandlerClass;
  socket : Socket;
  allow_reuse_address : bool;
  server_port : option Z;
  timeout : option Q;
  daemon_threads : bool;
  request_queue_size : Z
}.

Definition set_server_address (self : Server) (a : Address) : Server :=
  mkServer a (RequestHandlerClass self) (socket self)
    (allow_reuse_address self) (server_port self) (timeout self)
    (daemon_threads self) (request_queue_size self).

Definition set_server_port (self : Server) (p : option Z) : Server :=
  mkServer (server_address self) (RequestHandlerClass self) (socket self)
    (allow_reuse_address self) p (timeout self)
    (daemon_threads self) (request_queue_size self).

(** ** The standard library's [socketserver]

    [PailgunServer] inherits these methods from [TCPServer] and
    [PailgunHandlerBase] inherits [setup] and [finish] from
    [BaseRequestHandler].  They belong to Python's standard library, not
    to this repository, and follow [socketserver.py] of CPython 3. *)
Module SocketServer.

(** The exception [request.shutdown] raises on a dead connection. *)
Definition socket_error : PyExc :=
  mkExc SocketError "error" "[Errno 107] Transport endpoint is not connected"
    true.

(** [BaseRequestHandler.setup] and [finish]: [pass]. *)
Definition setup (w : World) (request : Socket) : M unit := mret tt.
Definition finish (w : World) (request : Socket) : M unit := mret tt.

Definition server_bind (w : World) (self : Server) : M Server :=
  (if allow_reuse_address self
   then emit (EvSetReuseAddr (socket self)) else mret tt);;
  call_ (EvBind (socket self) (server_address self))
        (sock_bind w (socket self) (server_address self));;
  emit (EvGetSockName (socket self));;
  mret (set_server_address self (getsockname w (socket self))).

Definition server_activate (w : World) (self : Server) : M unit :=
  call_ (EvListen (socket self) (request_queue_size self))
        (sock_listen w (socket self)).

Definition server_close (self : Server) : M unit :=
  emit (EvSockClose (socket self)).

Definition get_request (w : World) (self : Server) : M (Socket * Address) :=
  call (EvAccept (socket self)) (sock_accept w (socket self)).

Definition verify_request (request : Socket) (client : Address) : bool :=
  true.

(** [BaseServer.handle_timeout]: [pass]. *)
Definition handle_timeout : M unit := mret tt.

(** [BaseServer.handle_error]: prints the traceback on the daemon's own
    stderr. *)
Definition handle_error (request : Socket) (client : Address) : M unit :=
  emit (EvServerHandleError request client).

Definition close_request (request : Socket) : M unit :=
  emit (EvSockClose request).

Definition shutdown_request (w : World) (request : Socket) : M unit :=
  try_except is_socket_error
    (call_ (EvSockShutdown request)
           (if shutdown_fails w request then Some socket_error else None))
    (fun _ => mret tt);;
  close_request request.

(** [process_request] is the method of the subclass. *)
Definition _handle_request_noblock (w : World) (self : Server)
    (process_request : Socket -> Address -> M unit) : M unit :=
  try_except_else is_socket_error
    (get_request w self)
    (fun _ => mret tt)
    (fun '(request, client_address) =>
       if verify_request request client_address then
         try_except (fun _ => true)
           (process_request request client_address)
           (fun e =>
              if is_Exception e then
                handle_error request client_address;;
                shutdown_request w request
              else
                shutdown_request w request;; raise e)
       else shutdown_request w request).

End SocketServer.

(** Modelled from the spec: [pants.util.contextutil.maybe_profiled] is
    missing from the sources, and the spec gives the handler no work
    besides decode, prepend and run.  The context manager therefore does
    nothing for an absent or empty path; otherwise it enables a profiler on
    entry and dumps the statistics to the path on exit, whatever the body
    did, and lets the body's exception through. *)
Definition maybe_profiled (profile_path : option string) (body : M unit)
    : M unit :=
  match profile_path with
  | None | Some EmptyString => body
  | Some path =>
      emit (EvProfileEnable path);;
      try_finally body (emit (EvProfileDump path))
  end.

(** ** [class PailgunHandlerBase(BaseRequestHandler)] *)
Module PailgunHandlerBase.

Definition handle_request (cls : HandlerClass) (w : World)
    (request : Socket) : M unit :=
  setup cls w request;;
  try_finally (handle cls w request) (finish cls w request).

Definition handle (w : World) (request : Socket) : M unit := mret tt.

Definition handle_error (w : World) (request : Socket)
    (exc : option PyExc) : M unit := mret tt.

Definition class : HandlerClass :=
  mkHandlerClass SocketServer.setup handle SocketServer.finish handle_error.

End PailgunHandlerBase.

(** ** [class PailgunHandler(PailgunHandlerBase)] *)
Module PailgunHandler.

Definition _run_pants (w : World) (sock : Socket)
    (arguments : list string) (environment : gmap string string)
    : M unit :=
  r ← call (EvRunnerFactory sock arguments environment)
           (runner_factory w sock arguments environment);
  call_ (EvRun r) (runner_run w r).

(** The first two fields of the decoded request (working directory and
    command) are dropped; [arguments.insert(0, './pants')] is the cons. *)
Definition handle (w : World) (request : Socket) : M unit :=
  '(_, _, arguments, environment) ←
      call (EvParseRequest request) (parse_request w request);
  let arguments := "./pants" :: arguments in
  emit (EvLogInfo
          ("handling pailgun request: `" +:+ join " " arguments +:+ "`"));;
  emit (EvLogDebug "pailgun request environment: %s" environment);;
  maybe_profiled (environment !! "PANTSD_PROFILE")
    (_run_pants w request arguments environment);;
  emit (EvLogInfo
          ("pailgun request completed: `" +:+ join " " arguments +:+ "`")).

(** [exc] defaults to [None]; [if exc:] tests its truth value, which is
    false for [None] and [exc_truthy] for an exception instance.
    [traceback.format_exc()] formats the exception being handled, which
    is [exc] at the only call site. *)
Definition handle_error (w : World) (request : Socket)
    (exc : option PyExc) : M unit :=
  match exc with
  | Some e =>
      if exc_truthy e then
        call_ (EvSendStderr request (format_exc e))
              (send_stderr w request (format_exc e))
      else mret tt
  | None => mret tt
  end;;
  let failure_code := 1%Z in
  call_ (EvSendExit request failure_code)
        (send_exit_with_code w request failure_code).

Definition class : HandlerClass :=
  mkHandlerClass SocketServer.setup handle SocketServer.finish handle_error.

End PailgunHandler.

(** ** [class PailgunServer(ThreadingMixIn, TCPServer)] *)
Module PailgunServer.

(** Class attributes: [timeout = 0.05] and [daemon_threads = True]. *)
Module Class.
Definition timeout : option Q := Some (5 # 100)%Q.
Definition daemon_threads : bool := true.
End Class.

Definition server_bind (w : World) (self : Server) : M Server :=
  self ← SocketServer.server_bind w self;
  emit (EvGetSockName (socket self));;
  mret (set_server_port self (Some (snd (getsockname w (socket self))))).

(** [runner_factory], [lifecycle_lock] and [request_complete_callback]
    are callables: their calls are events answered by the world. *)
Definition __init__ (w : World) (server_address : Address)
    (handler_class : option HandlerClass) (bind_and_activate : bool)
    : M Server :=
  emit (EvSocketCreate (new_socket w));;
  let self :=
    {| server_address := server_address;
       RequestHandlerClass := default PailgunHandler.class handler_class;
       socket := new_socket w;
       allow_reuse_address := true;
       server_port := None;
       timeout := Class.timeout;
       daemon_threads := Class.daemon_threads;
       request_queue_size := 5 |} in
  if bind_and_activate then
    try_except is_Exception
      (self ← server_bind w self;
       SocketServer.server_activate w self;;
       mret self)
      (fun e => SocketServer.server_close self;; raise e)
  else mret self.

Definition process_request (w : World) (self : Server)
    (request : Socket) (client_address : Address) : M unit :=
  call_ (EvThreadStart "PailgunRequestThread" (daemon_threads self)
           request client_address)
        (thread_start w).

(** [with self.lifecycle_lock(): body]: the lock is acquired on entry
    and released on exit, whatever the body did; its [__exit__] does
    not suppress exceptions. *)
Definition with_lifecycle_lock (body : M unit) : M unit :=
  emit EvLockAcquire;;
  try_finally body (emit EvLockRelease).

Definition handle_request (w : World) (self : Server) : M unit :=
  emit (EvGetTimeout (socket self));;
  let timeout :=
    match gettimeout w (socket self) with
    | None => timeout self
    | Some t =>
        match timeout self with
        | Some self_timeout => Some (py_min t self_timeout)
        | None => Some t
        end
    end in
  fd_sets ← call (EvSelect (socket self) timeout)
                 (safe_select w (socket self) timeout);
  if py_not (fd_sets.1.1) then
    SocketServer.handle_timeout
  else
    with_lifecycle_lock
      (SocketServer._handle_request_noblock w self
         (process_request w self)).

Definition process_request_thread (w : World) (self : Server)
    (request : Socket) (client_address : Address) : M unit :=
  emit EvNativeOverrideLogging;;
  let handler := RequestHandlerClass self in
  try_except_else is_Exception
    (PailgunHandlerBase.handle_request handler w request;;
     call_ EvRequestComplete (request_complete_callback w))
    (fun e =>
       try_finally (handle_error handler w request (Some e))
                   (SocketServer.shutdown_request w request))
    (fun _ => SocketServer.close_request request).

End PailgunServer.

(** ** Observations on traces *)

Fixpoint count_ev (p : event -> bool) (tr : list event) : nat :=
  match tr with
  | [] => 0
  | ev :: tr' => (if p ev then 1 else 0) + count_ev p tr'
  end.

Definition is_close (s : Socket) (ev : event) : bool :=
  match ev with EvSockClose s' => Nat.eqb s s' | _ => false end.

Definition is_shutdown (s : Socket) (ev : event) : bool :=
  match ev with EvSockShutdown s' => Nat.eqb s s' | _ => false end.

Definition is_callback (ev : event) : bool :=
  match ev with EvRequestComplete => true | _ => false end.

Definition is_send_exit (ev : event) : bool :=
  match ev with EvSendExit _ _ => true | _ => false end.

Definition is_runner_factory (ev : event) : bool :=
  match ev with EvRunnerFactory _ _ _ => true | _ => false end.

Definition is_lock_op (ev : event) : bool :=
  match ev with EvLockAcquire | EvLockRelease => true | _ => false end.

Definition is_accept (ev : event) : bool :=
  match ev with EvAccept _ => true | _ => false end.

(** The events [PailgunHandler.handle] can produce. *)
Definition handle_event (ev : event) : bool :=
  match ev with
  | EvParseRequest _ | EvLogInfo _ | EvLogDebug _ _
  | EvProfileEnable _ | EvProfileDump _
  | EvRunnerFactory _ _ _ | EvRun _ => true
  | _ => false
  end.

(** The timeout [handle_request] passes to [select]: the socket's own
    timeout when the server has none, the server's when the socket has
    none, and the smaller of the two otherwise. *)
Definition effective_timeout (w : World) (self : Server) : option Q :=
  match gettimeout w (socket self) with
  | None => timeout self
  | Some t =>
      match timeout self with
      | Some self_timeout => Some (py_min t self_timeout)
      | None => Some t
      end
  end.

(** The accept+dispatch step that [handle_request] runs under the lock. *)
Definition accept_and_dispatch (w : World) (self : Server) : M unit :=
  SocketServer._handle_request_noblock w self
    (PailgunServer.process_request w self).

(** ** Shapes of the end of a handler thread's trace *)

(** Success path: the completion callback is invoked once and then the
    connection is released by [close_request] alone. *)
Definition closed_without_shutdown (request : Socket) (tr : list event)
    : Prop :=
  count_ev is_callback tr = 1 /\
  (exists pre, tr = pre ++ [EvRequestComplete; EvSockClose request]) /\
  count_ev (is_close request) tr = 1 /\
  count_ev (is_shutdown request) tr = 0.

(** Error path: a non-empty text on stderr, then exit code 1, then the
    connection is shut down and closed. *)
Definition error_reported_then_torn_down (request : Socket)
    (tr : list event) : Prop :=
  exists pre text,
    tr = pre ++ [EvSendStderr request text; EvSendExit request 1;
                 EvSockShutdown request; EvSockClose request]
    /\ text <> EmptyString.

(** The teardown of the error path: shutdown, then close. *)
Definition torn_down (request : Socket) (tr : list event) : Prop :=
  exists pre, tr = pre ++ [EvSockShutdown request; EvSockClose request].

(** The connection is released once: by [close_request], or by
    [shutdown_request] (which shuts down and closes), and by nothing
    before. *)
Definition released_once (request : Socket) (tr : list event) : Prop :=
  exists pre,
    count_ev (is_close request) pre = 0 /\
    count_ev (is_shutdown request) pre = 0 /\
    (tr = pre ++ [EvSockClose request] \/
     tr = pre ++ [EvSockShutdown request; EvSockClose request]).

(** The connection is not released at all. *)
Definition never_released (request : Socket) (tr : list event) : Prop :=
  count_ev (is_close request) tr = 0 /\
  count_ev (is_shutdown request) tr = 0.

(** An outcome that [except Exception] does not catch. *)
Definition uncaught {A} (r : result A) : bool :=
  match r with
  | Ret _ => false
  | Raise e => negb (is_Exception e)
  end.

(** The world in which the codec decodes the given request. *)
Definition with_decoded (w : World) (r : NailgunRequest) : World :=
  mkWorld (fun _ => Ret r) (send_stderr w) (send_exit_with_code w)
    (runner_factory w) (runner_run w) (request_complete_callback w)
    (shutdown_fails w) (new_socket w) (sock_bind w) (sock_listen w)
    (getsockname w) (gettimeout w) (safe_select w) (sock_accept w)
    (thread_start w).

(** The body of the [try] statement of [process_request_thread]. *)
Definition try_body (w : World) (cls : HandlerClass) (request : Socket)
    : M unit :=
  PailgunHandlerBase.handle_request cls w request;;
  call_ EvRequestComplete (request_complete_callback w).

(** ** Worlds and servers used as concrete inputs *)
Module Examples.

Definition value_error : PyExc := mkExc OtherException "ValueError" "boom" true.

Definition broken_pipe : PyExc :=
  mkExc SocketError "error" "[Errno 32] Broken pipe" true.

Definition system_exit : PyExc :=
  mkExc BaseExceptionOnly "SystemExit" "1" true.

(** An instance of a subclass of [Exception] whose [__len__] returns 0:
    its truth value is false. *)
Definition empty_batch_error : PyExc :=
  mkExc OtherException "EmptyBatchError" "no targets" false.

(** Everything succeeds; the client sent [list ::]; a connection is
    waiting. *)
Definition w_ok : World := {|
  parse_request := fun _ => Ret ("/buildroot", "pants", ["list"; "::"], ∅);
  send_stderr := fun _ _ => None;
  send_exit_with_code := fun _ _ => None;
  runner_factory := fun _ _ _ => Ret 7;
  runner_run := fun _ => None;
  request_complete_callback := None;
  shutdown_fails := fun _ => false;
  new_socket := 3;
  sock_bind := fun _ _ => None;
  sock_listen := fun _ => None;
  getsockname := fun _ => ("127.0.0.1", 4242%Z);
  gettimeout := fun _ => None;
  safe_select := fun s _ => Ret ([s], [], []);
  sock_accept := fun _ => Ret (9, ("127.0.0.1", 5555%Z));
  thread_start := None
|}.

Definition set_callback (w : World) (o : option PyExc) : World :=
  mkWorld (parse_request w) (send_stderr w) (send_exit_with_code w)
    (runner_factory w) (runner_run w) o
    (shutdown_fails w) (new_socket w) (sock_bind w) (sock_listen w)
    (getsockname w) (gettimeout w) (safe_select w) (sock_accept w)
    (thread_start w).

Definition set_run (w : World) (o : option PyExc) : World :=
  mkWorld (parse_request w) (send_stderr w) (send_exit_with_code w)
    (runner_factory w) (fun _ => o) (request_complete_callback w)
    (shutdown_fails w) (new_socket w) (sock_bind w) (sock_listen w)
    (getsockname w) (gettimeout w) (safe_select w) (sock_accept w)
    (thread_start w).

Definition set_send_stderr (w : World) (o : option PyExc) : World :=
  mkWorld (parse_request w) (fun _ _ => o) (send_exit_with_code w)
    (runner_factory w) (runner_run w) (request_complete_callback w)
    (shutdown_fails w) (new_socket w) (sock_bind w) (sock_listen w)
    (getsockname w) (gettimeout w) (safe_select w) (sock_accept w)
    (thread_start w).

Definition set_select (w : World)
    (r : result (list Socket * list Socket * list Socket)) : World :=
  mkWorld (parse_request w) (send_stderr w) (send_exit_with_code w)
    (runner_factory w) (runner_run w) (request_complete_callback w)
    (shutdown_fails w) (new_socket w) (sock_bind w) (sock_listen w)
    (getsockname w) (gettimeout w) (fun _ _ => r) (sock_accept w)
    (thread_start w).

Definition set_listen (w : World) (o : option PyExc) : World :=
  mkWorld (parse_request w) (send_stderr w) (send_exit_with_code w)
    (runner_factory w) (runner_run w) (request_complete_callback w)
    (shutdown_fails w) (new_socket w) (sock_bind w) (fun _ => o)
    (getsockname w) (gettimeout w) (safe_select w) (sock_accept w)
    (thread_start w).

(** The server [PailgunServer(("127.0.0.1", 0), ...)] after binding. *)
Definition server : Server := {|
  server_address := ("127.0.0.1", 4242%Z);
  RequestHandlerClass := PailgunHandler.class;
  socket := 3;
  allow_reuse_address := true;
  server_port := Some 4242%Z;
  timeout := PailgunServer.Class.timeout;
  daemon_threads := PailgunServer.Class.daemon_threads;
  request_queue_size := 5
|}.

Definition client : Address := ("127.0.0.1", 5555%Z).

(** The completion callback raises [ValueError]. *)
Definition w_callback_raises : World :=
  set_callback w_ok (Some value_error).

(** The completion callback raises [SystemExit]. *)
Definition w_callback_exits : World :=
  set_callback w_ok (Some system_exit).

(** [run()] raises [ValueError] and the client is reachable. *)
Definition w_run_raises : World := set_run w_ok (Some value_error).

(** [run()] raises [ValueError] and the client has gone away: writing
    to the connection raises [socket.error]. *)
Definition w_run_raises_client_gone : World :=
  set_send_stderr w_run_raises (Some broken_pipe).

(** [run()] raises [SystemExit]. *)
Definition w_run_exits : World := set_run w_ok (Some system_exit).

(** [run()] raises an exception whose truth value is false. *)
Definition w_run_raises_falsy : World :=
  set_run w_ok (Some empty_batch_error).

(** The completion callback raises an exception whose truth value is
    false. *)
Definition w_callback_raises_falsy : World :=
  set_callback w_ok (Some empty_batch_error).

(** The callback raises and the client has gone away. *)
Definition w_callback_raises_client_gone : World :=
  set_send_stderr w_callback_raises (Some broken_pipe).

Definition keyboard_interrupt : PyExc :=
  mkExc BaseExceptionOnly "KeyboardInterrupt" EmptyString true.

(** The accept is interrupted by a signal ([KeyboardInterrupt]). *)
Definition w_accept_interrupted : World :=
  mkWorld (parse_request w_ok) (send_stderr w_ok)
    (send_exit_with_code w_ok) (runner_factory w_ok) (runner_run w_ok)
    (request_complete_callback w_ok) (shutdown_fails w_ok)
    (new_socket w_ok) (sock_bind w_ok) (sock_listen w_ok)
    (getsockname w_ok) (gettimeout w_ok) (safe_select w_ok)
    (fun _ => Raise keyboard_interrupt)
    (thread_start w_ok).

(** Nothing is readable when [select] times out. *)
Definition w_idle : World := set_select w_ok (Ret ([], [], [])).

(** [listen] fails. *)
Definition w_listen_fails : World := set_listen w_ok (Some broken_pipe).

End Examples.

(** ** Further observations on traces *)

Definition is_run (ev : event) : bool :=
  match ev with EvRun _ => true | _ => false end.

Definition is_acquire (ev : event) : bool :=
  match ev with EvLockAcquire => true | _ => false end.

Definition is_release (ev : event) : bool :=
  match ev with EvLockRelease => true | _ => false end.

Definition is_send_stderr (ev : event) : bool :=
  match ev with EvSendStderr _ _ => true | _ => false end.

Definition is_log_info (ev : event) : bool :=
  match ev with EvLogInfo _ => true | _ => false end.

(** An event that acts on a connection other than [request], or writes an
    exit code other than 1. *)
Definition foreign_event (request : Socket) (ev : event) : bool :=
  match ev with
  | EvSendStderr s _ | EvSockShutdown s | EvSockClose s
  | EvParseRequest s | EvRunnerFactory s _ _ => negb (Nat.eqb s request)
  | EvSendExit s code => negb (Nat.eqb s request && Z.eqb code 1)
  | _ => false
  end.

(** Events of the listening side of the server. *)
Definition listener_event (ev : event) : bool :=
  match ev with
  | EvSocketCreate _ | EvSetReuseAddr _ | EvBind _ _ | EvGetSockName _
  | EvListen _ _ | EvGetTimeout _ | EvSelect _ _ | EvAccept _
  | EvLockAcquire | EvLockRelease | EvThreadStart _ _ _ _
  | EvServerHandleError _ _ => true
  | _ => false
  end.

(** Handler classes and worlds for the further properties. *)
Module MoreExamples.

(** A handler class with a [setup] and a [finish] of its own, both of
    which log. *)
Definition logging_class : HandlerClass :=
  mkHandlerClass
    (fun _ _ => emit (EvLogInfo "setup"))
    PailgunHandler.handle
    (fun _ _ => emit (EvLogInfo "finish"))
    PailgunHandler.handle_error.

(** The codec cannot decode the request. *)
Definition w_decode_fails : World :=
  mkWorld (fun _ => Raise Examples.value_error)
    (send_stderr Examples.w_ok) (send_exit_with_code Examples.w_ok)
    (runner_factory Examples.w_ok) (runner_run Examples.w_ok)
    (request_complete_callback Examples.w_ok)
    (shutdown_fails Examples.w_ok) (new_socket Examples.w_ok)
    (sock_bind Examples.w_ok) (sock_listen Examples.w_ok)
    (getsockname Examples.w_ok) (gettimeout Examples.w_ok)
    (safe_select Examples.w_ok) (sock_accept Examples.w_ok)
    (thread_start Examples.w_ok).

(** The socket has a timeout of 0.02s of its own. *)
Definition w_socket_timeout : World :=
  mkWorld (parse_request Examples.w_ok)
    (send_stderr Examples.w_ok) (send_exit_with_code Examples.w_ok)
    (runner_factory Examples.w_ok) (runner_run Examples.w_ok)
    (request_complete_callback Examples.w_ok)
    (shutdown_fails Examples.w_ok) (new_socket Examples.w_ok)
    (sock_bind Examples.w_ok) (sock_listen Examples.w_ok)
    (getsockname Examples.w_ok) (fun _ => Some (2 # 100)%Q)
    (safe_select Examples.w_ok) (sock_accept Examples.w_ok)
    (thread_start Examples.w_ok).

(** [select] fails with an error that is not an interruption. *)
Definition w_select_fails : World :=
  Examples.set_select Examples.w_ok (Raise Examples.value_error).

(** [bind] is interrupted by a signal. *)
Definition w_bind_interrupted : World :=
  mkWorld (parse_request Examples.w_ok)
    (send_stderr Examples.w_ok) (send_exit_with_code Examples.w_ok)
    (runner_factory Examples.w_ok) (runner_run Examples.w_ok)
    (request_complete_callback Examples.w_ok)
    (shutdown_fails Examples.w_ok) (new_socket Examples.w_ok)
    (fun _ _ => Some Examples.keyboard_interrupt)
    (sock_listen Examples.w_ok)
    (getsockname Examples.w_ok) (gettimeout Examples.w_ok)
    (safe_select Examples.w_ok) (sock_accept Examples.w_ok)
    (thread_start Examples.w_ok).

End MoreExamples.

(** ** [pants/backend/python/goals/run_helper.py]

    The two rule helpers await the engine (interpreter constraints, entry
    point, pexes, digests) and then assemble a run request from the
    answers.  The engine is not part of this file: the assembly is
    embedded, as a function of the awaited answers. *)

(** The characters [/], [.] and [_]. *)
Definition slash : Ascii.ascii := Ascii.ascii_of_nat 47.
Definition dot : Ascii.ascii := Ascii.ascii_of_nat 46.
Definition underscore : Ascii.ascii := Ascii.ascii_of_nat 95.

(** [str.startswith("/")]. *)
Definition starts_with_sep (s : string) : bool :=
  match s with
  | String c _ => Ascii.eqb c slash
  | EmptyString => false
  end.

(** [str.endswith("/")]. *)
Fixpoint ends_with_sep (s : string) : bool :=
  match s with
  | EmptyString => false
  | String c s' =>
      match s' with
      | EmptyString => Ascii.eqb c slash
      | String _ _ => ends_with_sep s'
      end
  end.

(** [os.path.join(a, b)] of [posixpath]: an absolute [b] replaces [a];
    otherwise [b] is appended, after a separator unless [a] is empty or
    already ends with one. *)
Definition posixpath_join (a b : string) : string :=
  if starts_with_sep b then b
  else if (String.eqb a EmptyString || ends_with_sep a)%bool then a +:+ b
  else a +:+ "/" +:+ b.

(** [s.rstrip("/")]. *)
Fixpoint rstrip_sep (s : string) : string :=
  match s with
  | EmptyString => EmptyString
  | String c s' =>
      match rstrip_sep s' with
      | EmptyString =>
          if Ascii.eqb c slash then EmptyString else String c EmptyString
      | String c' r => String c (String c' r)
      end
  end.

(** [s.replace(".", "_")]. *)
Fixpoint replace_dots (s : string) : string :=
  match s with
  | EmptyString => EmptyString
  | String c s' =>
      String (if Ascii.eqb c dot then underscore else c) (replace_dots s')
  end.

(** ["." in s]. *)
Fixpoint contains_dot (s : string) : bool :=
  match s with
  | EmptyString => false
  | String c s' => (Ascii.eqb c dot || contains_dot s')%bool
  end.

(** [os.pathsep] on the platforms pants runs on. *)
Definition pathsep : string := ":".

Module RunHelper.

Definition _in_chroot (relpath : string) : string :=
  posixpath_join "{chroot}" relpath.

(** [RunRequest] and [RunDebugAdapterRequest] have the same fields. *)
Record RunRequest (Digest : Type) : Type := mkRunRequest {
  digest : Digest;
  args : list string;
  extra_env : gmap string string
}.
Arguments mkRunRequest {Digest} _ _ _.
Arguments digest {Digest} _.
Arguments args {Digest} _.
Arguments extra_env {Digest} _.

(** Lines 60-62: the name of the pex, from the address. *)
Definition pex_filename (generated_name : option string)
    (target_name : string) : string :=
  match generated_name with
  | None | Some EmptyString => target_name
  | Some name => replace_dots name
  end.

(** Lines 115-121: the entries of [PEX_EXTRA_SYS_PATH]. *)
Definition source_roots (run_in_sandbox : bool)
    (sources_source_roots : list string) : list string :=
  let chrooted_source_roots := _in_chroot <$> sources_source_roots in
  (if run_in_sandbox then [] else sources_source_roots)
  ++ chrooted_source_roots.

(** Lines 115-131 of [_create_python_source_run_request], after the last
    await: [merged_digest], [venv_pex.pex.argv0],
    [complete_pex_environment.environment_dict(...)] and
    [sources.source_roots] are the awaited answers. *)
Definition _create_python_source_run_request {Digest : Type}
    (run_in_sandbox : bool) (merged_digest : Digest) (argv0 : string)
    (environment_dict : gmap string string)
    (sources_source_roots : list string) : RunRequest Digest :=
  let source_roots := source_roots run_in_sandbox sources_source_roots in
  let extra_env :=
    <["PEX_EXTRA_SYS_PATH" := join pathsep source_roots]> environment_dict in
  mkRunRequest merged_digest [_in_chroot argv0] extra_env.

Definition key_error (key : string) : PyExc :=
  mkExc OtherException "KeyError" key true.

Definition assertion_error : PyExc :=
  mkExc OtherException "AssertionError" EmptyString true.

(** Lines 201-220 of [_create_python_source_run_dap_request], after the
    last await: [merged_digest], [debugpy_pex.name] and [entry_point.val]
    are the awaited answers; [get_args main] stands for
    [debugpy.get_args(debug_adapter, main)].  A main specification is an
    object, hence true in [console_script or entry_point.val]. *)
Definition _create_python_source_run_dap_request {Digest Main : Type}
    (regular_run_request : RunRequest Digest)
    (merged_digest : Digest) (debugpy_pex_name : string)
    (console_script entry_point_val : option Main)
    (get_args : Main -> list string) : result (RunRequest Digest) :=
  let extra_env := extra_env regular_run_request in
  match extra_env !! "PEX_PATH" with
  | None => Raise (key_error "PEX_PATH")
  | Some pex_path =>
      let extra_env :=
        <["PEX_PATH" := join pathsep [pex_path; _in_chroot debugpy_pex_name]]>
          extra_env in
      let extra_env := <["PEX_INTERPRETER" := "1"]> extra_env in
      let extra_env :=
        <["PANTS_CHROOT" := rstrip_sep (_in_chroot EmptyString)]> extra_env in
      let main :=
        match console_script with
        | Some c => Some c
        | None => entry_point_val
        end in
      match main with
      | None => Raise assertion_error
      | Some main =>
          let args :=
            args regular_run_request
            ++ [_in_chroot "__debugpy_launcher.py"]
            ++ get_args main in
          Ret (mkRunRequest merged_digest args extra_env)
      end
  end.

End RunHelper.

(** ** Lemmas on computations *)

Ltac unfold_M :=
  unfold mbind, M_bind, mret, M_ret, call, call_, emit, raise,
    try_finally, try_except, try_except_else, trace, outcome in *.

Lemma M_eta {A} (m : M A) : m = (trace m, outcome m).
Proof. destruct m; reflexivity. Qed.

Lemma try_finally_spec {A} (body : M A) (t : list event) :
  try_finally body (t, Ret tt) = (trace body ++ t, outcome body).
Proof. destruct body; reflexivity. Qed.

Lemma count_ev_app (p : event -> bool) (t1 t2 : list event) :
  count_ev p (t1 ++ t2) = count_ev p t1 + count_ev p t2.
Proof.
  induction t1 as [|ev t1 IH]; simpl; [reflexivity|].
  rewrite IH. lia.
Qed.

Lemma count_ev_excluded (p q : event -> bool) (tr : list event) :
  (forall ev, q ev = true -> p ev = false) ->
  forallb q tr = true ->
  count_ev p tr = 0.
Proof.
  intros Hpq. induction tr as [|ev tr IH]; simpl; [reflexivity|].
  intros H. apply andb_prop in H as [Hev Htr].
  rewrite (Hpq ev Hev). simpl. auto.
Qed.

(** ** Lemmas on the handler *)

(** [setup] and [finish] are the no-ops of the standard library, so
    [handle_request] of a [PailgunHandler] is its [handle]. *)
Lemma PailgunHandler_handle_request (w : World) (request : Socket) :
  PailgunHandlerBase.handle_request PailgunHandler.class w request
  = PailgunHandler.handle w request.
Proof.
  unfold PailgunHandlerBase.handle_request. simpl.
  unfold SocketServer.setup, SocketServer.finish.
  destruct (PailgunHandler.handle w request) as [t r].
  unfold_M. simpl. rewrite app_nil_r. reflexivity.
Qed.

(** [handle] only decodes, logs, profiles and runs: it neither invokes the
    completion callback nor touches the life of the connection. *)
Lemma PailgunHandler_handle_events (w : World) (request : Socket) :
  forallb handle_event (trace (PailgunHandler.handle w request)) = true.
Proof.
  unfold PailgunHandler.handle, PailgunHandler._run_pants, maybe_profiled.
  unfold_M.
  destruct (parse_request w request) as [[[[wd cmd] args] env]|e];
    [|reflexivity].
  destruct (env !! "PANTSD_PROFILE") as [[|c path]|];
    destruct (runner_factory w request ("./pants" :: args) env) as [r|e];
    try destruct (runner_run w r); reflexivity.
Qed.

Lemma shutdown_request_spec (w : World) (request : Socket) :
  SocketServer.shutdown_request w request
  = ([EvSockShutdown request; EvSockClose request], Ret tt).
Proof.
  unfold SocketServer.shutdown_request, SocketServer.close_request.
  unfold_M. destruct (shutdown_fails w request); reflexivity.
Qed.

Lemma PailgunHandler_handle_error_spec (w : World) (request : Socket)
    (e : PyExc) :
  PailgunHandler.handle_error w request (Some e)
  = if exc_truthy e then
      match send_stderr w request (format_exc e) with
      | None =>
          ([EvSendStderr request (format_exc e); EvSendExit request 1],
           match send_exit_with_code w request 1 with
           | None => Ret tt
           | Some e' => Raise e'
           end)
      | Some e' => ([EvSendStderr request (format_exc e)], Raise e')
      end
    else
      ([EvSendExit request 1],
       match send_exit_with_code w request 1 with
       | None => Ret tt
       | Some e' => Raise e'
       end).
Proof.
  unfold PailgunHandler.handle_error. unfold_M.
  destruct (exc_truthy e); [|reflexivity].
  destruct (send_stderr w request (format_exc e)); reflexivity.
Qed.

Lemma format_exc_nonempty (e : PyExc) : format_exc e <> EmptyString.
Proof. unfold format_exc. simpl. discriminate. Qed.

(** ** The paths of [process_request_thread] *)

Lemma process_request_thread_unfold (w : World) (self : Server)
    (request : Socket) (client_address : Address) :
  PailgunServer.process_request_thread w self request client_address
  = (emit EvNativeOverrideLogging;;
     try_except_else is_Exception
       (try_body w (RequestHandlerClass self) request)
       (fun e =>
          try_finally
            (handle_error (RequestHandlerClass self) w request (Some e))
            (SocketServer.shutdown_request w request))
       (fun _ => SocketServer.close_request request)).
Proof. reflexivity. Qed.

(** The [else] path: the body returned. *)
Lemma process_request_thread_returned (w : World) (self : Server)
    (request : Socket) (client_address : Address) :
  outcome (try_body w (RequestHandlerClass self) request) = Ret tt ->
  PailgunServer.process_request_thread w self request client_address
  = (EvNativeOverrideLogging
       :: trace (try_body w (RequestHandlerClass self) request)
       ++ [EvSockClose request],
     Ret tt).
Proof.
  intros H. rewrite process_request_thread_unfold.
  destruct (try_body w (RequestHandlerClass self) request) as [t r].
  simpl in H. subst r. reflexivity.
Qed.

(** The [except Exception] path: the body raised an [Exception]. *)
Lemma process_request_thread_caught (w : World) (self : Server)
    (request : Socket) (client_address : Address) (e : PyExc) :
  outcome (try_body w (RequestHandlerClass self) request) = Raise e ->
  is_Exception e = true ->
  PailgunServer.process_request_thread w self request client_address
  = (EvNativeOverrideLogging
       :: trace (try_body w (RequestHandlerClass self) request)
       ++ trace (handle_error (RequestHandlerClass self) w request (Some e))
       ++ [EvSockShutdown request; EvSockClose request],
     outcome (handle_error (RequestHandlerClass self) w request (Some e))).
Proof.
  intros H He. rewrite process_request_thread_unfold.
  destruct (try_body w (RequestHandlerClass self) request) as [t r].
  simpl in H. subst r.
  unfold try_except_else, emit, mbind, M_bind. rewrite He.
  rewrite shutdown_request_spec, try_finally_spec.
  reflexivity.
Qed.

(** No path: the body raised something [except Exception] lets through. *)
Lemma process_request_thread_uncaught (w : World) (self : Server)
    (request : Socket) (client_address : Address) (e : PyExc) :
  outcome (try_body w (RequestHandlerClass self) request) = Raise e ->
  is_Exception e = false ->
  PailgunServer.process_request_thread w self request client_address
  = (EvNativeOverrideLogging
       :: trace (try_body w (RequestHandlerClass self) request),
     Raise e).
Proof.
  intros H He. rewrite process_request_thread_unfold.
  destruct (try_body w (RequestHandlerClass self) request) as [t r].
  simpl in H. subst r.
  unfold try_except_else, emit, mbind, M_bind. rewrite He.
  reflexivity.
Qed.

(** The body of the [try] for a [PailgunHandler]. *)
Lemma try_body_PailgunHandler (w : World) (request : Socket) :
  try_body w PailgunHandler.class request
  = match outcome (PailgunHandler.handle w request) with
    | Ret _ =>
        (trace (PailgunHandler.handle w request) ++ [EvRequestComplete],
         match request_complete_callback w with
         | None => Ret tt
         | Some e => Raise e
         end)
    | Raise e => (trace (PailgunHandler.handle w request), Raise e)
    end.
Proof.
  unfold try_body. rewrite PailgunHandler_handle_request.
  destruct (PailgunHandler.handle w request) as [t [[]|e]]; reflexivity.
Qed.

(** Neither [handle] nor the callback releases the connection. *)
Lemma try_body_count_0 (w : World) (request : Socket) (p : event -> bool) :
  (forall ev, handle_event ev = true -> p ev = false) ->
  p EvRequestComplete = false ->
  count_ev p (trace (try_body w PailgunHandler.class request)) = 0.
Proof.
  intros Hp Hcb. rewrite try_body_PailgunHandler.
  pose proof (PailgunHandler_handle_events w request) as Hev.
  pose proof (count_ev_excluded p handle_event _ Hp Hev) as H0.
  destruct (outcome (PailgunHandler.handle w request)); simpl.
  - rewrite count_ev_app, H0. simpl. rewrite Hcb. reflexivity.
  - exact H0.
Qed.

Lemma handle_error_count_0 (w : World) (request : Socket) (e : PyExc)
    (p : event -> bool) :
  (forall s t, p (EvSendStderr s t) = false) ->
  (forall s c, p (EvSendExit s c) = false) ->
  count_ev p (trace (PailgunHandler.handle_error w request (Some e))) = 0.
Proof.
  intros H1 H2. rewrite PailgunHandler_handle_error_spec.
  destruct (exc_truthy e);
    [destruct (send_stderr w request (format_exc e))|]; simpl;
    rewrite ?H1, ?H2; reflexivity.
Qed.

Lemma handle_event_not_close (s : Socket) (ev : event) :
  handle_event ev = true -> is_close s ev = false.
Proof. destruct ev; simpl; congruence. Qed.

Lemma handle_event_not_shutdown (s : Socket) (ev : event) :
  handle_event ev = true -> is_shutdown s ev = false.
Proof. destruct ev; simpl; congruence. Qed.

Lemma handle_event_not_callback (ev : event) :
  handle_event ev = true -> is_callback ev = false.
Proof. destruct ev; simpl; congruence. Qed.

Lemma handle_event_not_lock_op (ev : event) :
  handle_event ev = true -> is_lock_op ev = false.
Proof. destruct ev; simpl; congruence. Qed.

(** ** The claims *)

(** C1 (as stated, refuted).  [handle()] returns normally, the completion
    callback raises [ValueError]: the callback was invoked once, but the
    thread then takes the error path and releases the connection through
    [shutdown_request], so the connection is shut down. *)
Lemma C1_callback_raises_counterexample :
  outcome (PailgunHandler.handle Examples.w_callback_raises 9) = Ret tt /\
  trace (PailgunServer.process_request_thread Examples.w_callback_raises
           Examples.server 9 Examples.client)
  = [EvNativeOverrideLogging; EvParseRequest 9;
     EvLogInfo "handling pailgun request: `./pants list ::`";
     EvLogDebug "pailgun request environment: %s" ∅;
     EvRunnerFactory 9 ["./pants"; "list"; "::"] ∅; EvRun 7;
     EvLogInfo "pailgun request completed: `./pants list ::`";
     EvRequestComplete;
     EvSendStderr 9 (format_exc Examples.value_error); EvSendExit 9 1;
     EvSockShutdown 9; EvSockClose 9] /\
  ~ closed_without_shutdown 9
      (trace (PailgunServer.process_request_thread Examples.w_callback_raises
                Examples.server 9 Examples.client)).
Proof.
  split; [reflexivity|]. split; [reflexivity|].
  intros (_ & _ & _ & H). vm_compute in H. discriminate.
Qed.

(** C1 (amended).  For every accepted connection whose handler's
    [handle()] returns normally and whose request-completed callback
    returns normally, [process_request_thread] invokes the callback exactly
    once and then releases the connection via [close_request] only: no
    shutdown is made, and the thread returns normally. *)
Theorem C1_success_path_closes_without_shutdown
    (w : World) (self : Server) (request : Socket) (client_address : Address) :
  RequestHandlerClass self = PailgunHandler.class ->
  outcome (PailgunHandler.handle w request) = Ret tt ->
  request_complete_callback w = None ->
  PailgunServer.process_request_thread w self request client_address
  = (EvNativeOverrideLogging :: trace (PailgunHandler.handle w request)
       ++ [EvRequestComplete; EvSockClose request], Ret tt)
  /\ closed_without_shutdown request
       (trace (PailgunServer.process_request_thread w self request
                 client_address)).
Proof.
  intros Hcls Hh Hcb.
  assert (Hbody : try_body w (RequestHandlerClass self) request
                  = (trace (PailgunHandler.handle w request)
                       ++ [EvRequestComplete], Ret tt)).
  { rewrite Hcls, try_body_PailgunHandler, Hh, Hcb. reflexivity. }
  assert (Heq : PailgunServer.process_request_thread w self request
                  client_address
                = (EvNativeOverrideLogging
                     :: trace (PailgunHandler.handle w request)
                     ++ [EvRequestComplete; EvSockClose request], Ret tt)).
  { rewrite process_request_thread_returned; rewrite Hbody; [|reflexivity].
    simpl. rewrite <- app_assoc. reflexivity. }
  split; [exact Heq|]. rewrite Heq.
  pose proof (PailgunHandler_handle_events w request) as Hev.
  set (th := trace (PailgunHandler.handle w request)) in *.
  unfold trace. simpl fst.
  repeat split.
  - simpl. rewrite count_ev_app.
    rewrite (count_ev_excluded is_callback handle_event _
               handle_event_not_callback Hev). reflexivity.
  - exists (EvNativeOverrideLogging :: th). reflexivity.
  - simpl. rewrite count_ev_app.
    rewrite (count_ev_excluded (is_close request) handle_event _
               (handle_event_not_close request) Hev).
    simpl. rewrite Nat.eqb_refl. reflexivity.
  - simpl. rewrite count_ev_app.
    rewrite (count_ev_excluded (is_shutdown request) handle_event _
               (handle_event_not_shutdown request) Hev).
    reflexivity.
Qed.

Lemma C1_success_path_witness :
  closed_without_shutdown 9
    (trace (PailgunServer.process_request_thread Examples.w_ok
              Examples.server 9 Examples.client)).
Proof.
  apply (C1_success_path_closes_without_shutdown Examples.w_ok
           Examples.server 9 Examples.client); reflexivity.
Defined.

(** The error path of a [PailgunHandler] thread for an exception whose
    truth value is true: the stderr write, the exit code if that write
    returned, and the teardown in either case. *)
Lemma error_path_reported (w : World) (self : Server) (request : Socket)
    (client_address : Address) (e : PyExc) :
  RequestHandlerClass self = PailgunHandler.class ->
  outcome (try_body w PailgunHandler.class request) = Raise e ->
  is_Exception e = true ->
  exc_truthy e = true ->
  PailgunServer.process_request_thread w self request client_address
  = (EvNativeOverrideLogging
       :: trace (try_body w PailgunHandler.class request)
       ++ EvSendStderr request (format_exc e)
       :: match send_stderr w request (format_exc e) with
          | None => [EvSendExit request 1]
          | Some _ => []
          end
       ++ [EvSockShutdown request; EvSockClose request],
     match send_stderr w request (format_exc e) with
     | Some e' => Raise e'
     | None =>
         match send_exit_with_code w request 1 with
         | None => Ret tt
         | Some e' => Raise e'
         end
     end).
Proof.
  intros Hcls Hb He Ht.
  rewrite (process_request_thread_caught w self request client_address e);
    rewrite ?Hcls; [|assumption|assumption].
  rewrite PailgunHandler_handle_error_spec, Ht.
  destruct (send_stderr w request (format_exc e)); reflexivity.
Qed.

Lemma error_reported_sends_exit (request : Socket) (tr : list event) :
  error_reported_then_torn_down request tr ->
  1 <= count_ev is_send_exit tr.
Proof.
  intros (pre & text & -> & _). rewrite count_ev_app. simpl. lia.
Qed.

Lemma error_reported_sends_stderr (request : Socket) (tr : list event) :
  error_reported_then_torn_down request tr ->
  1 <= count_ev is_send_stderr tr.
Proof.
  intros (pre & text & -> & _). rewrite count_ev_app. simpl. lia.
Qed.

(** C2 (as stated, refuted), at three inputs.  (1) [run()] raises
    [ValueError] and the client has gone away, so the stderr write raises:
    no exit code is written.  (2) [run()] raises [SystemExit], which
    [except Exception] does not catch: nothing is written and the
    connection is neither shut down nor closed.  (3) [run()] raises an
    exception whose truth value is false: [if exc:] skips the stderr
    write and only the exit code is written. *)
Lemma C2_error_path_counterexample :
  (outcome (PailgunHandler.handle Examples.w_run_raises_client_gone 9)
   = Raise Examples.value_error /\
   trace (PailgunServer.process_request_thread
            Examples.w_run_raises_client_gone Examples.server 9
            Examples.client)
   = [EvNativeOverrideLogging; EvParseRequest 9;
      EvLogInfo "handling pailgun request: `./pants list ::`";
      EvLogDebug "pailgun request environment: %s" ∅;
      EvRunnerFactory 9 ["./pants"; "list"; "::"] ∅; EvRun 7;
      EvSendStderr 9 (format_exc Examples.value_error);
      EvSockShutdown 9; EvSockClose 9] /\
   ~ error_reported_then_torn_down 9
       (trace (PailgunServer.process_request_thread
                 Examples.w_run_raises_client_gone Examples.server 9
                 Examples.client)))
  /\
  (outcome (PailgunHandler.handle Examples.w_run_exits 9)
   = Raise Examples.system_exit /\
   trace (PailgunServer.process_request_thread Examples.w_run_exits
            Examples.server 9 Examples.client)
   = [EvNativeOverrideLogging; EvParseRequest 9;
      EvLogInfo "handling pailgun request: `./pants list ::`";
      EvLogDebug "pailgun request environment: %s" ∅;
      EvRunnerFactory 9 ["./pants"; "list"; "::"] ∅; EvRun 7] /\
   ~ error_reported_then_torn_down 9
       (trace (PailgunServer.process_request_thread Examples.w_run_exits
                 Examples.server 9 Examples.client)))
  /\
  (outcome (PailgunHandler.handle Examples.w_run_raises_falsy 9)
   = Raise Examples.empty_batch_error /\
   trace (PailgunServer.process_request_thread Examples.w_run_raises_falsy
            Examples.server 9 Examples.client)
   = [EvNativeOverrideLogging; EvParseRequest 9;
      EvLogInfo "handling pailgun request: `./pants list ::`";
      EvLogDebug "pailgun request environment: %s" ∅;
      EvRunnerFactory 9 ["./pants"; "list"; "::"] ∅; EvRun 7;
      EvSendExit 9 1; EvSockShutdown 9; EvSockClose 9] /\
   ~ error_reported_then_torn_down 9
       (trace (PailgunServer.process_request_thread
                 Examples.w_run_raises_falsy Examples.server 9
                 Examples.client))).
Proof.
  split; [|split]; (split; [reflexivity|]); (split; [reflexivity|]);
    intros H.
  - apply error_reported_sends_exit in H. vm_compute in H. lia.
  - apply error_reported_sends_exit in H. vm_compute in H. lia.
  - apply error_reported_sends_stderr in H. vm_compute in H. lia.
Qed.

(** C2 (amended).  For every accepted connection on which [handle()]
    raises an instance of [Exception] whose truth value is true, the error
    path writes the non-empty traceback text to the connection's stderr
    and, provided that write returns normally, then writes a terminal exit
    code of exactly 1; afterwards, whether or not the stderr write
    returned, the connection is both shut down and closed by the parent
    process. *)
Theorem C2_error_path_reports_and_tears_down
    (w : World) (self : Server) (request : Socket) (client_address : Address)
    (e : PyExc) :
  RequestHandlerClass self = PailgunHandler.class ->
  outcome (PailgunHandler.handle w request) = Raise e ->
  is_Exception e = true ->
  exc_truthy e = true ->
  trace (PailgunServer.process_request_thread w self request client_address)
  = EvNativeOverrideLogging :: trace (PailgunHandler.handle w request)
      ++ EvSendStderr request (format_exc e)
      :: match send_stderr w request (format_exc e) with
         | None => [EvSendExit request 1]
         | Some _ => []
         end
      ++ [EvSockShutdown request; EvSockClose request]
  /\ format_exc e <> EmptyString
  /\ torn_down request
       (trace (PailgunServer.process_request_thread w self request
                 client_address))
  /\ (send_stderr w request (format_exc e) = None ->
      error_reported_then_torn_down request
        (trace (PailgunServer.process_request_thread w self request
                  client_address))).
Proof.
  intros Hcls Hh He Ht.
  assert (Hb : try_body w PailgunHandler.class request
               = (trace (PailgunHandler.handle w request), Raise e)).
  { rewrite try_body_PailgunHandler, Hh. reflexivity. }
  rewrite (error_path_reported w self request client_address e);
    try assumption; [|rewrite Hb; reflexivity].
  rewrite Hb. unfold trace at 1 3 4 6. simpl fst.
  split; [reflexivity|]. split; [apply format_exc_nonempty|]. split.
  - exists (EvNativeOverrideLogging
              :: trace (PailgunHandler.handle w request)
              ++ EvSendStderr request (format_exc e)
              :: match send_stderr w request (format_exc e) with
                 | None => [EvSendExit request 1]
                 | Some _ => []
                 end).
    simpl. rewrite <- app_assoc. reflexivity.
  - intros Hs. rewrite Hs.
    exists (EvNativeOverrideLogging
              :: trace (PailgunHandler.handle w request)),
      (format_exc e).
    split; [reflexivity | apply format_exc_nonempty].
Qed.

Lemma C2_error_path_witness :
  error_reported_then_torn_down 9
    (trace (PailgunServer.process_request_thread Examples.w_run_raises
              Examples.server 9 Examples.client)).
Proof.
  apply (C2_error_path_reports_and_tears_down Examples.w_run_raises
           Examples.server 9 Examples.client Examples.value_error);
    reflexivity.
Defined.

(** C3 (as stated, refuted).  [run()] raises and the client has gone
    away, so the error path itself raises ([send_stderr] fails with
    [socket.error]).  Nothing catches that failure: it is the outcome of
    [process_request_thread]. *)
Lemma C3_error_path_failure_counterexample :
  outcome (PailgunHandler.handle_error Examples.w_run_raises_client_gone 9
             (Some Examples.value_error))
  = Raise Examples.broken_pipe /\
  outcome (PailgunServer.process_request_thread
             Examples.w_run_raises_client_gone Examples.server 9
             Examples.client)
  = Raise Examples.broken_pipe /\
  outcome (PailgunServer.process_request_thread
             Examples.w_run_raises_client_gone Examples.server 9
             Examples.client)
  <> Ret tt.
Proof. split; [reflexivity|]. split; [reflexivity|discriminate]. Qed.

(** C3 (amended).  If the error path itself raises (e.g. sending the
    stderr text or the exit code fails), [process_request_thread] does not
    catch that failure: the shutdown+close teardown still occurs
    unconditionally, in the [finally] step, and then the failure
    propagates out of [process_request_thread].  This holds for every
    handler class. *)
Theorem C3_error_path_failure_tears_down_then_propagates
    (w : World) (self : Server) (request : Socket) (client_address : Address)
    (e e' : PyExc) :
  outcome (try_body w (RequestHandlerClass self) request) = Raise e ->
  is_Exception e = true ->
  outcome (handle_error (RequestHandlerClass self) w request (Some e))
  = Raise e' ->
  outcome (PailgunServer.process_request_thread w self request
             client_address) = Raise e'
  /\ trace (PailgunServer.process_request_thread w self request
              client_address)
     = EvNativeOverrideLogging
         :: trace (try_body w (RequestHandlerClass self) request)
         ++ trace (handle_error (RequestHandlerClass self) w request (Some e))
         ++ [EvSockShutdown request; EvSockClose request]
  /\ torn_down request
       (trace (PailgunServer.process_request_thread w self request
                 client_address)).
Proof.
  intros Hb He Hh.
  rewrite (process_request_thread_caught w self request client_address e)
    by assumption.
  unfold outcome at 1. unfold trace at 1 4. simpl.
  split; [exact Hh|]. split; [reflexivity|].
  exists (EvNativeOverrideLogging
            :: trace (try_body w (RequestHandlerClass self) request)
            ++ trace (handle_error (RequestHandlerClass self) w request
                        (Some e))).
  simpl. rewrite <- app_assoc. reflexivity.
Qed.

Lemma C3_error_path_failure_witness :
  outcome (PailgunServer.process_request_thread
             Examples.w_run_raises_client_gone Examples.server 9
             Examples.client) = Raise Examples.broken_pipe
  /\ torn_down 9
       (trace (PailgunServer.process_request_thread
                 Examples.w_run_raises_client_gone Examples.server 9
                 Examples.client)).
Proof.
  pose proof (C3_error_path_failure_tears_down_then_propagates
                Examples.w_run_raises_client_gone Examples.server 9
                Examples.client Examples.value_error Examples.broken_pipe
                eq_refl eq_refl eq_refl) as (H1 & _ & H3).
  split; assumption.
Defined.

(** C9 (as stated, refuted), at three inputs.  (1) The callback raises
    [ValueError] and the client has gone away, so the stderr write of the
    error path raises: no exit code is sent.  (2) The callback raises
    [SystemExit]: [except Exception] does not catch it, the error path
    does not run and the connection is neither shut down nor closed.
    (3) The callback raises an exception whose truth value is false:
    [if exc:] skips the stderr write and no traceback is sent. *)
Lemma C9_callback_failure_counterexample :
  (outcome (PailgunHandler.handle Examples.w_callback_raises_client_gone 9)
   = Ret tt /\
   trace (PailgunServer.process_request_thread
            Examples.w_callback_raises_client_gone Examples.server 9
            Examples.client)
   = [EvNativeOverrideLogging; EvParseRequest 9;
      EvLogInfo "handling pailgun request: `./pants list ::`";
      EvLogDebug "pailgun request environment: %s" ∅;
      EvRunnerFactory 9 ["./pants"; "list"; "::"] ∅; EvRun 7;
      EvLogInfo "pailgun request completed: `./pants list ::`";
      EvRequestComplete;
      EvSendStderr 9 (format_exc Examples.value_error);
      EvSockShutdown 9; EvSockClose 9] /\
   ~ error_reported_then_torn_down 9
       (trace (PailgunServer.process_request_thread
                 Examples.w_callback_raises_client_gone Examples.server 9
                 Examples.client)))
  /\
  (outcome (PailgunHandler.handle Examples.w_callback_exits 9) = Ret tt /\
   PailgunServer.process_request_thread Examples.w_callback_exits
     Examples.server 9 Examples.client
   = ([EvNativeOverrideLogging; EvParseRequest 9;
       EvLogInfo "handling pailgun request: `./pants list ::`";
       EvLogDebug "pailgun request environment: %s" ∅;
       EvRunnerFactory 9 ["./pants"; "list"; "::"] ∅; EvRun 7;
       EvLogInfo "pailgun request completed: `./pants list ::`";
       EvRequestComplete],
      Raise Examples.system_exit) /\
   ~ error_reported_then_torn_down 9
       (trace (PailgunServer.process_request_thread
                 Examples.w_callback_exits Examples.server 9
                 Examples.client)))
  /\
  (outcome (PailgunHandler.handle Examples.w_callback_raises_falsy 9)
   = Ret tt /\
   PailgunServer.process_request_thread Examples.w_callback_raises_falsy
     Examples.server 9 Examples.client
   = ([EvNativeOverrideLogging; EvParseRequest 9;
       EvLogInfo "handling pailgun request: `./pants list ::`";
       EvLogDebug "pailgun request environment: %s" ∅;
       EvRunnerFactory 9 ["./pants"; "list"; "::"] ∅; EvRun 7;
       EvLogInfo "pailgun request completed: `./pants list ::`";
       EvRequestComplete;
       EvSendExit 9 1; EvSockShutdown 9; EvSockClose 9],
      Ret tt) /\
   ~ error_reported_then_torn_down 9
       (trace (PailgunServer.process_request_thread
                 Examples.w_callback_raises_falsy Examples.server 9
                 Examples.client))).
Proof.
  split; [|split]; (split; [reflexivity|]); (split; [reflexivity|]);
    intros H.
  - apply error_reported_sends_exit in H. vm_compute in H. lia.
  - apply error_reported_sends_exit in H. vm_compute in H. lia.
  - apply error_reported_sends_stderr in H. vm_compute in H. lia.
Qed.

(** C9 (amended).  If the request-completed callback raises an instance
    of [Exception] whose truth value is true after [handle()] has returned
    normally, [process_request_thread] catches that exception and runs the
    error path: the client is sent a stderr traceback and, provided that
    write returns normally, exit code 1; then, whether or not the stderr
    write returned, the connection is shut down and closed by the parent,
    although [run()] completed successfully.  The thread raises only what
    a failed write of the error path raised. *)
Theorem C9_callback_failure_takes_error_path
    (w : World) (self : Server) (request : Socket) (client_address : Address)
    (e : PyExc) :
  RequestHandlerClass self = PailgunHandler.class ->
  outcome (PailgunHandler.handle w request) = Ret tt ->
  request_complete_callback w = Some e ->
  is_Exception e = true ->
  exc_truthy e = true ->
  PailgunServer.process_request_thread w self request client_address
  = (EvNativeOverrideLogging :: trace (PailgunHandler.handle w request)
       ++ [EvRequestComplete; EvSendStderr request (format_exc e)]
       ++ match send_stderr w request (format_exc e) with
          | None => [EvSendExit request 1]
          | Some _ => []
          end
       ++ [EvSockShutdown request; EvSockClose request],
     match send_stderr w request (format_exc e) with
     | Some e' => Raise e'
     | None =>
         match send_exit_with_code w request 1 with
         | None => Ret tt
         | Some e' => Raise e'
         end
     end)
  /\ format_exc e <> EmptyString
  /\ torn_down request
       (trace (PailgunServer.process_request_thread w self request
                 client_address))
  /\ (send_stderr w request (format_exc e) = None ->
      error_reported_then_torn_down request
        (trace (PailgunServer.process_request_thread w self request
                  client_address))).
Proof.
  intros Hcls Hh Hcb He Ht.
  assert (Hb : try_body w PailgunHandler.class request
               = (trace (PailgunHandler.handle w request)
                    ++ [EvRequestComplete], Raise e)).
  { rewrite try_body_PailgunHandler, Hh, Hcb. reflexivity. }
  assert (Heq : PailgunServer.process_request_thread w self request
                  client_address
                = (EvNativeOverrideLogging
                     :: trace (PailgunHandler.handle w request)
                     ++ [EvRequestComplete;
                         EvSendStderr request (format_exc e)]
                     ++ match send_stderr w request (format_exc e) with
                        | None => [EvSendExit request 1]
                        | Some _ => []
                        end
                     ++ [EvSockShutdown request; EvSockClose request],
                   match send_stderr w request (format_exc e) with
                   | Some e' => Raise e'
                   | None =>
                       match send_exit_with_code w request 1 with
                       | None => Ret tt
                       | Some e' => Raise e'
                       end
                   end)).
  { rewrite (error_path_reported w self request client_address e);
      try assumption; [|rewrite Hb; reflexivity].
    rewrite Hb. unfold trace at 1. simpl fst.
    rewrite <- app_assoc. reflexivity. }
  split; [exact Heq|]. rewrite Heq.
  split; [apply format_exc_nonempty|]. split.
  - exists (EvNativeOverrideLogging
              :: trace (PailgunHandler.handle w request)
              ++ [EvRequestComplete; EvSendStderr request (format_exc e)]
              ++ match send_stderr w request (format_exc e) with
                 | None => [EvSendExit request 1]
                 | Some _ => []
                 end).
    unfold trace at 1. simpl. rewrite <- !app_assoc. reflexivity.
  - intros Hs. rewrite Hs.
    exists (EvNativeOverrideLogging
              :: trace (PailgunHandler.handle w request)
              ++ [EvRequestComplete]), (format_exc e).
    split; [|apply format_exc_nonempty].
    unfold trace at 1. simpl. rewrite <- app_assoc. reflexivity.
Qed.

Lemma C9_callback_failure_witness :
  error_reported_then_torn_down 9
    (trace (PailgunServer.process_request_thread Examples.w_callback_raises
              Examples.server 9 Examples.client)).
Proof.
  apply (C9_callback_failure_takes_error_path Examples.w_callback_raises
           Examples.server 9 Examples.client Examples.value_error);
    reflexivity.
Defined.

Lemma released_once_closes (request : Socket) (tr : list event) :
  released_once request tr -> count_ev (is_close request) tr = 1.
Proof.
  intros (pre & Hc & _ & [-> | ->]); rewrite count_ev_app, Hc; simpl;
    rewrite Nat.eqb_refl; reflexivity.
Qed.

(** C10 (as stated, refuted).  [run()] raises [SystemExit], which is not
    an instance of [Exception]: neither the [except] nor the [else] branch
    runs, and the connection is released by neither [close_request] nor
    [shutdown_request]. *)
Lemma C10_system_exit_counterexample :
  PailgunServer.process_request_thread Examples.w_run_exits
    Examples.server 9 Examples.client
  = ([EvNativeOverrideLogging; EvParseRequest 9;
      EvLogInfo "handling pailgun request: `./pants list ::`";
      EvLogDebug "pailgun request environment: %s" ∅;
      EvRunnerFactory 9 ["./pants"; "list"; "::"] ∅; EvRun 7],
     Raise Examples.system_exit) /\
  never_released 9
    (trace (PailgunServer.process_request_thread Examples.w_run_exits
              Examples.server 9 Examples.client)) /\
  ~ released_once 9
      (trace (PailgunServer.process_request_thread Examples.w_run_exits
                Examples.server 9 Examples.client)).
Proof.
  split; [reflexivity|]. split; [split; reflexivity|].
  intros H. apply released_once_closes in H. vm_compute in H. discriminate.
Qed.

(** C10 (amended).  For every connection for which the handler object is
    constructed, unless [handle_request] or the completion callback raises
    an exception that is not an instance of [Exception],
    [process_request_thread] releases the connection exactly once: by
    [close_request] on the normal path, or by [shutdown_request] on the
    exception path, never both and never neither.  When such an exception
    is raised, the connection is released by neither and the exception
    propagates. *)
Theorem C10_released_exactly_once
    (w : World) (self : Server) (request : Socket) (client_address : Address) :
  RequestHandlerClass self = PailgunHandler.class ->
  let body := try_body w PailgunHandler.class request in
  let thread :=
    PailgunServer.process_request_thread w self request client_address in
  if uncaught (outcome body)
  then never_released request (trace thread)
       /\ outcome thread = outcome body
  else released_once request (trace thread)
       /\ count_ev (is_shutdown request) (trace thread)
          = match outcome body with Ret _ => 0 | Raise _ => 1 end.
Proof.
  intros Hcls body thread.
  assert (Hc : count_ev (is_close request) (trace body) = 0).
  { apply try_body_count_0;
      [apply handle_event_not_close | reflexivity]. }
  assert (Hs : count_ev (is_shutdown request) (trace body) = 0).
  { apply try_body_count_0;
      [apply handle_event_not_shutdown | reflexivity]. }
  destruct (outcome body) as [[]|e] eqn:Hb; simpl.
  - (* else: close_request *)
    assert (Ht : thread = (EvNativeOverrideLogging :: trace body
                             ++ [EvSockClose request], Ret tt)).
    { subst thread body.
      rewrite process_request_thread_returned; rewrite Hcls;
        [reflexivity|assumption]. }
    rewrite Ht. unfold trace at 1 3. simpl fst. split.
    + exists (EvNativeOverrideLogging :: trace body).
      simpl. rewrite Hc, Hs. auto.
    + simpl. rewrite count_ev_app, Hs. reflexivity.
  - destruct (is_Exception e) eqn:He; simpl.
    + (* except Exception: handle_error, finally shutdown_request *)
      assert (Ht : trace thread
                   = EvNativeOverrideLogging :: trace body
                       ++ trace (PailgunHandler.handle_error w request
                                   (Some e))
                       ++ [EvSockShutdown request; EvSockClose request]).
      { subst thread body.
        rewrite (process_request_thread_caught w self request
                   client_address e); rewrite ?Hcls;
          [reflexivity|assumption|assumption]. }
      rewrite Ht.
      assert (Hec : count_ev (is_close request)
                      (trace (PailgunHandler.handle_error w request
                                (Some e))) = 0)
        by (apply handle_error_count_0; reflexivity).
      assert (Hes : count_ev (is_shutdown request)
                      (trace (PailgunHandler.handle_error w request
                                (Some e))) = 0)
        by (apply handle_error_count_0; reflexivity).
      split.
      * exists (EvNativeOverrideLogging :: trace body
                  ++ trace (PailgunHandler.handle_error w request (Some e))).
        simpl. rewrite !count_ev_app, Hc, Hs, Hec, Hes.
        repeat split. right. rewrite <- app_assoc. reflexivity.
      * simpl. rewrite !count_ev_app, Hs, Hes. simpl.
        rewrite Nat.eqb_refl. reflexivity.
    + (* not caught *)
      assert (Ht : thread = (EvNativeOverrideLogging :: trace body, Raise e)).
      { subst thread body.
        rewrite (process_request_thread_uncaught w self request
                   client_address e); rewrite ?Hcls;
          [reflexivity|assumption|assumption]. }
      rewrite Ht. unfold trace at 1 3, outcome at 1. simpl.
      repeat split; assumption.
Qed.

Lemma C10_released_exactly_once_witness :
  released_once 9
    (trace (PailgunServer.process_request_thread Examples.w_run_raises
              Examples.server 9 Examples.client))
  /\ count_ev (is_shutdown 9)
       (trace (PailgunServer.process_request_thread Examples.w_run_raises
                 Examples.server 9 Examples.client)) = 1.
Proof.
  exact (C10_released_exactly_once Examples.w_run_raises Examples.server 9
           Examples.client eq_refl).
Defined.

(** ** The listener *)

Lemma handle_request_unfold (w : World) (self : Server) :
  PailgunServer.handle_request w self
  = (emit (EvGetTimeout (socket self));;
     fd_sets ← call (EvSelect (socket self) (effective_timeout w self))
                    (safe_select w (socket self) (effective_timeout w self));
     if py_not (fd_sets.1.1) then SocketServer.handle_timeout
     else PailgunServer.with_lifecycle_lock (accept_and_dispatch w self)).
Proof. reflexivity. Qed.

Lemma with_lifecycle_lock_spec (body : M unit) :
  PailgunServer.with_lifecycle_lock body
  = (EvLockAcquire :: trace body ++ [EvLockRelease], outcome body).
Proof.
  unfold PailgunServer.with_lifecycle_lock, emit.
  rewrite try_finally_spec. reflexivity.
Qed.

(** The accept+dispatch step accepts once and never touches the lock. *)
Lemma accept_and_dispatch_events (w : World) (self : Server) :
  count_ev is_lock_op (trace (accept_and_dispatch w self)) = 0
  /\ count_ev is_accept (trace (accept_and_dispatch w self)) = 1.
Proof.
  unfold accept_and_dispatch, SocketServer._handle_request_noblock,
    SocketServer.get_request, SocketServer.verify_request,
    PailgunServer.process_request, SocketServer.handle_error.
  unfold call.
  destruct (sock_accept w (socket self)) as [[request client]|e];
    unfold try_except, try_except_else, call_.
  - destruct (thread_start w) as [e|]; [|split; reflexivity].
    cbn beta. destruct (is_Exception e); rewrite shutdown_request_spec;
      split; reflexivity.
  - destruct (is_socket_error e); split; reflexivity.
Qed.

(** A handler thread never touches the lock. *)
Lemma process_request_thread_no_lock_op (w : World) (self : Server)
    (request : Socket) (client_address : Address) :
  RequestHandlerClass self = PailgunHandler.class ->
  count_ev is_lock_op
    (trace (PailgunServer.process_request_thread w self request
              client_address)) = 0.
Proof.
  intros Hcls.
  assert (Hb : count_ev is_lock_op
                 (trace (try_body w PailgunHandler.class request)) = 0).
  { apply try_body_count_0;
      [apply handle_event_not_lock_op | reflexivity]. }
  destruct (outcome (try_body w PailgunHandler.class request))
    as [[]|e] eqn:Ho.
  - rewrite process_request_thread_returned; rewrite Hcls; [|assumption].
    unfold trace at 1. simpl. rewrite count_ev_app, Hb. reflexivity.
  - destruct (is_Exception e) eqn:He.
    + rewrite (process_request_thread_caught w self request
                 client_address e); rewrite ?Hcls; [|assumption|assumption].
      unfold trace at 1. simpl. rewrite !count_ev_app, Hb.
      rewrite handle_error_count_0; reflexivity.
    + rewrite (process_request_thread_uncaught w self request
                 client_address e); rewrite ?Hcls; [|assumption|assumption].
      unfold trace at 1. simpl. exact Hb.
Qed.

(** C4.  Every call to [handle_request] that reaches the accept+dispatch
    step (the select reported the server readable) acquires the lifecycle
    lock before accepting and releases it unconditionally afterwards: the
    accept+dispatch events lie between the acquire and the release, the
    release is the last event whatever the outcome of the step, and that
    outcome (a return or a raise) is the outcome of [handle_request].
    The lock does not cover the handler's request processing: dispatch
    only starts the thread, and the thread never operates on the lock. *)
Theorem C4_lock_scopes_accept_and_dispatch
    (w : World) (self : Server)
    (fd_sets : list Socket * list Socket * list Socket) :
  safe_select w (socket self) (effective_timeout w self) = Ret fd_sets ->
  py_not (fd_sets.1.1) = false ->
  trace (PailgunServer.handle_request w self)
  = [EvGetTimeout (socket self);
     EvSelect (socket self) (effective_timeout w self)]
    ++ [EvLockAcquire] ++ trace (accept_and_dispatch w self)
    ++ [EvLockRelease]
  /\ outcome (PailgunServer.handle_request w self)
     = outcome (accept_and_dispatch w self)
  /\ count_ev is_lock_op (trace (accept_and_dispatch w self)) = 0
  /\ count_ev is_accept (trace (accept_and_dispatch w self)) = 1
  /\ (forall request client_address,
        trace (PailgunServer.process_request w self request client_address)
        = [EvThreadStart "PailgunRequestThread" (daemon_threads self)
             request client_address])
  /\ (forall request client_address,
        RequestHandlerClass self = PailgunHandler.class ->
        count_ev is_lock_op
          (trace (PailgunServer.process_request_thread w self request
                    client_address)) = 0).
Proof.
  intros Hsel Hready.
  assert (Heq : PailgunServer.handle_request w self
                = ([EvGetTimeout (socket self);
                    EvSelect (socket self) (effective_timeout w self)]
                   ++ [EvLockAcquire] ++ trace (accept_and_dispatch w self)
                   ++ [EvLockRelease],
                   outcome (accept_and_dispatch w self))).
  { rewrite handle_request_unfold. unfold call. rewrite Hsel.
    unfold emit, mbind, M_bind. rewrite Hready.
    rewrite with_lifecycle_lock_spec. reflexivity. }
  rewrite Heq. unfold trace at 1, outcome at 1. simpl fst. simpl snd.
  split; [reflexivity|]. split; [reflexivity|].
  destruct (accept_and_dispatch_events w self) as [Hl Ha].
  split; [exact Hl|]. split; [exact Ha|].
  split; [reflexivity|].
  intros request client_address.
  apply process_request_thread_no_lock_op.
Qed.

Lemma C4_lock_released_when_accept_raises_witness :
  PailgunServer.handle_request Examples.w_accept_interrupted
    Examples.server
  = ([EvGetTimeout 3; EvSelect 3 (Some (5 # 100)%Q); EvLockAcquire;
      EvAccept 3; EvLockRelease],
     Raise Examples.keyboard_interrupt).
Proof.
  pose proof (C4_lock_scopes_accept_and_dispatch
                Examples.w_accept_interrupted Examples.server
                ([3], [], []) eq_refl eq_refl) as (Ht & Ho & _).
  rewrite (M_eta (PailgunServer.handle_request _ _)), Ht, Ho.
  reflexivity.
Defined.

(** [min] of Python on two timeouts is the minimum of the rationals. *)
Lemma py_min_Qmin (a b : Q) : py_min a b = Qmin a b.
Proof.
  unfold py_min, Qmin, GenericMinMax.gmin, Qle_bool, Qcompare, Z.leb.
  destruct (Qnum a * QDen b ?= Qnum b * QDen a)%Z; reflexivity.
Qed.

(** C5.  With the configured timeout of 0.05s, [handle_request] waits in
    [select] with the minimum of the socket's own timeout, when it is set,
    and 0.05s; if nothing is readable within that bound it returns normally,
    having accepted no connection (and taken no lock). *)
Theorem C5_idle_poll_returns
    (w : World) (self : Server) :
  timeout self = PailgunServer.Class.timeout ->
  effective_timeout w self
  = Some (match gettimeout w (socket self) with
          | Some t => Qmin t (5 # 100)
          | None => (5 # 100)%Q
          end)
  /\ (exists rest,
        trace (PailgunServer.handle_request w self)
        = [EvGetTimeout (socket self);
           EvSelect (socket self) (effective_timeout w self)] ++ rest)
  /\ (forall fd_sets,
        safe_select w (socket self) (effective_timeout w self) = Ret fd_sets ->
        fd_sets.1.1 = [] ->
        PailgunServer.handle_request w self
        = ([EvGetTimeout (socket self);
            EvSelect (socket self) (effective_timeout w self)], Ret tt)).
Proof.
  intros Hcfg. split; [|split].
  - unfold effective_timeout. rewrite Hcfg. simpl.
    destruct (gettimeout w (socket self)); [|reflexivity].
    rewrite py_min_Qmin. reflexivity.
  - rewrite handle_request_unfold. unfold call, emit, mbind, M_bind.
    destruct (safe_select w (socket self) (effective_timeout w self))
      as [fd_sets|e]; [|exists []; reflexivity].
    destruct (if py_not (fd_sets.1.1) then SocketServer.handle_timeout
              else PailgunServer.with_lifecycle_lock
                     (accept_and_dispatch w self)) as [t r].
    exists t. reflexivity.
  - intros fd_sets Hsel Hempty.
    rewrite handle_request_unfold. unfold call. rewrite Hsel.
    unfold emit, mbind, M_bind. rewrite Hempty. reflexivity.
Qed.

Lemma C5_idle_poll_witness :
  PailgunServer.handle_request Examples.w_idle Examples.server
  = ([EvGetTimeout 3; EvSelect 3 (Some (5 # 100)%Q)], Ret tt).
Proof.
  pose proof (C5_idle_poll_returns Examples.w_idle Examples.server eq_refl)
    as (_ & _ & H).
  exact (H ([], [], []) eq_refl eq_refl).
Defined.

(** C6.  For a decoded request with arguments ["list"; "::"] and an empty
    environment, the handler prepends the fixed program-name token
    [./pants] as element 0, and the runner factory is invoked, once, with
    exactly the arguments ["./pants"; "list"; "::"] and the decoded
    environment. *)
Theorem C6_program_token_prepended
    (w : World) (request : Socket) (working_dir command : string) :
  parse_request w request = Ret (working_dir, command, ["list"; "::"], ∅) ->
  (exists rest,
     trace (PailgunHandler.handle w request)
     = [EvParseRequest request;
        EvLogInfo "handling pailgun request: `./pants list ::`";
        EvLogDebug "pailgun request environment: %s" ∅;
        EvRunnerFactory request ["./pants"; "list"; "::"] ∅] ++ rest
     /\ count_ev is_runner_factory rest = 0)
  /\ count_ev is_runner_factory (trace (PailgunHandler.handle w request)) = 1.
Proof.
  intros Hparse.
  unfold PailgunHandler.handle, PailgunHandler._run_pants, maybe_profiled.
  unfold_M. rewrite Hparse. rewrite lookup_empty.
  destruct (runner_factory w request ["./pants"; "list"; "::"] ∅) as [r|e].
  - destruct (runner_run w r); (split; [eexists; split|]); reflexivity.
  - split; [exists []; split|]; reflexivity.
Qed.

Lemma C6_program_token_witness :
  count_ev is_runner_factory
    (trace (PailgunHandler.handle Examples.w_ok 9)) = 1.
Proof.
  exact (proj2 (C6_program_token_prepended Examples.w_ok 9
                  "/buildroot" "pants" eq_refl)).
Defined.

(** C7.  If binding or activation fails during construction with
    [bind_and_activate] true, the server closes the socket it has opened
    and then propagates the failure, unchanged, to the caller: the close
    is the last thing the constructor does and the socket is closed
    once. *)
Theorem C7_bind_failure_closes_socket
    (w : World) (server_address : Address)
    (handler_class : option HandlerClass) (e : PyExc) :
  sock_bind w (new_socket w) server_address = Some e
  \/ (sock_bind w (new_socket w) server_address = None
      /\ sock_listen w (new_socket w) = Some e) ->
  is_Exception e = true ->
  outcome (PailgunServer.__init__ w server_address handler_class true)
  = Raise e
  /\ exists pre,
       trace (PailgunServer.__init__ w server_address handler_class true)
       = EvSocketCreate (new_socket w) :: pre ++ [EvSockClose (new_socket w)]
       /\ count_ev (is_close (new_socket w)) pre = 0.
Proof.
  intros Hfail He.
  unfold PailgunServer.__init__, PailgunServer.server_bind,
    SocketServer.server_bind, SocketServer.server_activate,
    SocketServer.server_close.
  unfold_M. simpl.
  destruct Hfail as [Hb | [Hb Hl]]; rewrite Hb; simpl.
  - rewrite He. simpl. split; [reflexivity|].
    exists [EvSetReuseAddr (new_socket w);
            EvBind (new_socket w) server_address].
    split; reflexivity.
  - rewrite Hl. simpl. rewrite He. simpl. split; [reflexivity|].
    exists [EvSetReuseAddr (new_socket w);
            EvBind (new_socket w) server_address;
            EvGetSockName (new_socket w); EvGetSockName (new_socket w);
            EvListen (new_socket w) 5].
    split; reflexivity.
Qed.

Lemma C7_bind_failure_witness :
  outcome (PailgunServer.__init__ Examples.w_listen_fails
             ("127.0.0.1", 0%Z) None true)
  = Raise Examples.broken_pipe /\
  trace (PailgunServer.__init__ Examples.w_listen_fails
           ("127.0.0.1", 0%Z) None true)
  = [EvSocketCreate 3; EvSetReuseAddr 3; EvBind 3 ("127.0.0.1", 0%Z);
     EvGetSockName 3; EvGetSockName 3; EvListen 3 5; EvSockClose 3].
Proof.
  split.
  - apply (C7_bind_failure_closes_socket Examples.w_listen_fails
             ("127.0.0.1", 0%Z) None Examples.broken_pipe);
      [right; split; reflexivity | reflexivity].
  - reflexivity.
Defined.

(** C8.  Two decoded requests that differ only in their working-directory
    and command fields (same arguments, same environment) are handled
    identically: [handle], and with it the whole handler thread, produces
    the same events, with the same arguments to the runner factory, and
    the same outcome. *)
Theorem C8_working_dir_and_command_ignored
    (w : World) (self : Server) (request : Socket) (client_address : Address)
    (working_dir1 command1 working_dir2 command2 : string)
    (arguments : list string) (environment : gmap string string) :
  RequestHandlerClass self = PailgunHandler.class ->
  PailgunHandler.handle
    (with_decoded w (working_dir1, command1, arguments, environment)) request
  = PailgunHandler.handle
      (with_decoded w (working_dir2, command2, arguments, environment))
      request
  /\ PailgunServer.process_request_thread
       (with_decoded w (working_dir1, command1, arguments, environment))
       self request client_address
     = PailgunServer.process_request_thread
         (with_decoded w (working_dir2, command2, arguments, environment))
         self request client_address.
Proof.
  intros Hcls. split; [reflexivity|].
  rewrite !process_request_thread_unfold, Hcls.
  reflexivity.
Qed.

Lemma C8_working_dir_and_command_witness :
  PailgunServer.process_request_thread
    (with_decoded Examples.w_ok ("/buildroot", "pants", ["list"; "::"], ∅))
    Examples.server 9 Examples.client
  = PailgunServer.process_request_thread
      (with_decoded Examples.w_ok ("/tmp", "rm", ["list"; "::"], ∅))
      Examples.server 9 Examples.client.
Proof.
  exact (proj2 (C8_working_dir_and_command_ignored Examples.w_ok
                  Examples.server 9 Examples.client
                  "/buildroot" "pants" "/tmp" "rm" ["list"; "::"] ∅
                  eq_refl)).
Defined.
(** ** Further properties of the handler *)

Ltac unfold_handle :=
  unfold PailgunHandler.handle, PailgunHandler._run_pants, maybe_profiled;
  unfold_M.

Ltac solve_In :=
  cbn [fst snd app] in *;
  repeat match goal with
         | H : In _ (_ :: _) |- _ => destruct H as [H|H]
         | H : In _ [] |- _ => destruct H
         | H : _ \/ _ |- _ => destruct H as [H|H]
         | H : False |- _ => destruct H
         | H : @eq event _ _ |- _ =>
             first [discriminate H | inversion H; subst; clear H]
         end; auto.

(** X1.  For every decoded request, [handle] logs the command line, with
    [./pants] in front of the decoded arguments, and invokes the runner
    factory exactly once, on the connection, with [./pants] prepended to
    the decoded arguments and with the decoded environment. *)
Theorem handle_runner_factory_arguments
    (w : World) (request : Socket) (working_dir command : string)
    (arguments : list string) (environment : gmap string string) :
  parse_request w request
  = Ret (working_dir, command, arguments, environment) ->
  count_ev is_runner_factory (trace (PailgunHandler.handle w request)) = 1
  /\ (forall s a e,
        In (EvRunnerFactory s a e) (trace (PailgunHandler.handle w request)) ->
        s = request /\ a = "./pants" :: arguments /\ e = environment)
  /\ exists rest,
       trace (PailgunHandler.handle w request)
       = [EvParseRequest request;
          EvLogInfo ("handling pailgun request: `"
                     +:+ join " " ("./pants" :: arguments) +:+ "`");
          EvLogDebug "pailgun request environment: %s" environment]
         ++ rest.
Proof.
  intros Hparse. unfold_handle. rewrite Hparse.
  destruct (environment !! "PANTSD_PROFILE") as [[|c path]|];
    destruct (runner_factory w request ("./pants" :: arguments) environment)
      as [r|e];
    try destruct (runner_run w r);
    (split; [reflexivity|]);
    (split; [intros s a e' Hin; solve_In
            | eexists; reflexivity]).
Qed.

Lemma handle_runner_factory_arguments_witness :
  count_ev is_runner_factory
    (trace (PailgunHandler.handle MoreExamples.w_socket_timeout 9)) = 1.
Proof.
  exact (proj1 (handle_runner_factory_arguments
                  MoreExamples.w_socket_timeout 9
                  "/buildroot" "pants" ["list"; "::"] ∅ eq_refl)).
Defined.

(** X2.  [handle] returns normally exactly when the decode, the runner
    factory and [run()] all returned; and exactly then it logs its second
    line, the one that reports the request completed. *)
Theorem handle_returns_iff_all_stages_return
    (w : World) (request : Socket) :
  (outcome (PailgunHandler.handle w request) = Ret tt
   <-> exists working_dir command arguments environment r,
         parse_request w request
         = Ret (working_dir, command, arguments, environment)
         /\ runner_factory w request ("./pants" :: arguments) environment
            = Ret r
         /\ runner_run w r = None)
  /\ (count_ev is_log_info (trace (PailgunHandler.handle w request)) = 2
      <-> outcome (PailgunHandler.handle w request) = Ret tt).
Proof.
  unfold_handle.
  destruct (parse_request w request) as [[[[wd cmd] args] env]|e] eqn:Hp.
  - destruct (env !! "PANTSD_PROFILE") as [[|c path]|];
      destruct (runner_factory w request ("./pants" :: args) env)
        as [r|e] eqn:Hf;
      try destruct (runner_run w r) eqn:Hr; simpl;
      (split; split; intros H; try discriminate H; try reflexivity;
       try (exists wd, cmd, args, env, r; repeat split; assumption);
       try (destruct H as (wd' & cmd' & args' & env' & r' & H1 & H2 & H3);
            injection H1 as -> -> -> ->; congruence)).
  - simpl. split; split; intros H; try discriminate H.
    destruct H as (wd' & cmd' & args' & env' & r' & H1 & _). discriminate.
Qed.

(** X3.  [handle] runs at most one runner, and only the runner that the
    factory returned for this connection and these arguments. *)
Theorem handle_runs_only_the_runner_of_the_factory
    (w : World) (request : Socket) (r : Runner) :
  In (EvRun r) (trace (PailgunHandler.handle w request)) ->
  count_ev is_run (trace (PailgunHandler.handle w request)) = 1
  /\ exists working_dir command arguments environment,
       parse_request w request
       = Ret (working_dir, command, arguments, environment)
       /\ runner_factory w request ("./pants" :: arguments) environment
          = Ret r.
Proof.
  unfold_handle.
  destruct (parse_request w request) as [[[[wd cmd] args] env]|e] eqn:Hp;
    [|simpl; intros H; solve_In].
  destruct (env !! "PANTSD_PROFILE") as [[|c path]|];
    destruct (runner_factory w request ("./pants" :: args) env)
      as [r'|e] eqn:Hf;
    try destruct (runner_run w r') eqn:Hr; simpl; intros H; solve_In;
    (split; [reflexivity
            | exists wd, cmd, args, env; split;
              first [reflexivity | assumption | congruence]]).
Qed.

Lemma handle_runs_only_the_runner_of_the_factory_witness :
  count_ev is_run (trace (PailgunHandler.handle Examples.w_ok 9)) = 1.
Proof.
  apply (handle_runs_only_the_runner_of_the_factory Examples.w_ok 9 7).
  vm_compute. tauto.
Defined.

(** X4.  Whatever the codec, the factory and the runner do, [handle]
    only decodes, logs, profiles and runs: it never writes stderr text or
    an exit code to the client, never shuts down or closes a socket,
    never invokes the completion callback and never touches the lifecycle
    lock. *)
Theorem handle_never_answers_nor_releases
    (w : World) (request : Socket) :
  (forall ev, In ev (trace (PailgunHandler.handle w request)) ->
              handle_event ev = true)
  /\ count_ev is_send_stderr (trace (PailgunHandler.handle w request)) = 0
  /\ count_ev is_send_exit (trace (PailgunHandler.handle w request)) = 0
  /\ (forall s,
        count_ev (is_close s) (trace (PailgunHandler.handle w request)) = 0
        /\ count_ev (is_shutdown s)
             (trace (PailgunHandler.handle w request)) = 0)
  /\ count_ev is_callback (trace (PailgunHandler.handle w request)) = 0
  /\ count_ev is_lock_op (trace (PailgunHandler.handle w request)) = 0.
Proof.
  pose proof (PailgunHandler_handle_events w request) as Hev.
  assert (Hex : forall p, (forall ev, handle_event ev = true -> p ev = false)
                 -> count_ev p (trace (PailgunHandler.handle w request)) = 0).
  { intros p Hp. exact (count_ev_excluded p handle_event _ Hp Hev). }
  split.
  { intros ev Hin. rewrite forallb_forall in Hev. apply Hev, Hin. }
  repeat split; apply Hex; intros ev; destruct ev; simpl; congruence.
Qed.

Lemma exit_code_is_last (request : Socket) (tr pre post : list event)
    (s : Socket) (code : Z) :
  tr = pre ++ EvSendExit s code :: post ->
  (tr = [EvSendExit request 1]
   \/ (exists t, tr = [EvSendStderr request t])
   \/ (exists t, tr = [EvSendStderr request t; EvSendExit request 1])) ->
  post = [] /\ s = request /\ code = 1%Z.
Proof.
  intros -> H.
  destruct H as [H | [[t H] | [t H]]];
    destruct pre as [|x [|y pre]]; simpl in H; inversion H; subst; auto;
    match goal with
    | H : _ ++ _ :: _ = [] |- _ => destruct pre; discriminate H
    | H : [] = _ ++ _ :: _ |- _ => destruct pre; discriminate H
    end.
Qed.

(** The three traces the error handler can leave. *)
Lemma handle_error_shape (w : World) (request : Socket)
    (exc : option PyExc) :
  trace (PailgunHandler.handle_error w request exc)
  = [EvSendExit request 1]
  \/ (exists t, trace (PailgunHandler.handle_error w request exc)
                = [EvSendStderr request t])
  \/ (exists t, trace (PailgunHandler.handle_error w request exc)
                = [EvSendStderr request t; EvSendExit request 1]).
Proof.
  destruct exc as [e|].
  - rewrite PailgunHandler_handle_error_spec.
    destruct (exc_truthy e); [|left; reflexivity].
    destruct (send_stderr w request (format_exc e)); eauto.
  - left. reflexivity.
Qed.

Lemma handle_error_own_connection (w : World) (request : Socket)
    (exc : option PyExc) :
  count_ev (foreign_event request)
    (trace (PailgunHandler.handle_error w request exc)) = 0.
Proof.
  destruct (handle_error_shape w request exc) as [-> | [[t ->] | [t ->]]];
    simpl; rewrite ?Nat.eqb_refl; reflexivity.
Qed.

(** The truth value of the argument of [handle_error]. *)
Lemma handle_error_returns_iff (w : World) (request : Socket)
    (exc : option PyExc) :
  outcome (PailgunHandler.handle_error w request exc) = Ret tt
  <-> match exc with
      | Some e =>
          exc_truthy e = true -> send_stderr w request (format_exc e) = None
      | None => True
      end
      /\ send_exit_with_code w request 1 = None.
Proof.
  destruct exc as [e|].
  - rewrite PailgunHandler_handle_error_spec.
    destruct (exc_truthy e).
    + destruct (send_stderr w request (format_exc e)) as [e'|].
      * split; [discriminate|]. intros [H _].
        specialize (H eq_refl). discriminate.
      * unfold outcome; simpl.
        destruct (send_exit_with_code w request 1);
          split; auto; try discriminate; intros [_ H]; discriminate.
    + unfold outcome; simpl.
      destruct (send_exit_with_code w request 1).
      * split; [discriminate | intros [_ H]; discriminate].
      * split; [intros _; split; [discriminate | reflexivity] | reflexivity].
  - unfold PailgunHandler.handle_error. unfold_M. simpl.
    destruct (send_exit_with_code w request 1);
      split; auto; try discriminate; intros [_ H]; discriminate.
Qed.

(** X5.  The error handler writes to its own connection only, never an
    exit code other than 1, at most one exit code, and nothing after the
    exit code.  It writes the traceback to stderr first exactly when it
    is given an exception whose truth value is true; with no exception,
    or one whose truth value is false, it writes the exit code alone.  It
    returns normally exactly when every write it made returned. *)
Theorem handle_error_writes
    (w : World) (request : Socket) (exc : option PyExc) :
  count_ev (foreign_event request)
    (trace (PailgunHandler.handle_error w request exc)) = 0
  /\ count_ev is_send_exit
       (trace (PailgunHandler.handle_error w request exc)) <= 1
  /\ (forall pre post s code,
        trace (PailgunHandler.handle_error w request exc)
        = pre ++ EvSendExit s code :: post ->
        post = [] /\ s = request /\ code = 1%Z)
  /\ match exc with
     | Some e =>
         if exc_truthy e
         then exists rest,
                trace (PailgunHandler.handle_error w request exc)
                = EvSendStderr request (format_exc e) :: rest
                /\ count_ev is_send_stderr rest = 0
         else trace (PailgunHandler.handle_error w request exc)
              = [EvSendExit request 1]
     | None =>
         trace (PailgunHandler.handle_error w request exc)
         = [EvSendExit request 1]
     end
  /\ (outcome (PailgunHandler.handle_error w request exc) = Ret tt
      <-> match exc with
          | Some e =>
              exc_truthy e = true ->
              send_stderr w request (format_exc e) = None
          | None => True
          end
          /\ send_exit_with_code w request 1 = None).
Proof.
  pose proof (handle_error_shape w request exc) as Hshape.
  split; [apply handle_error_own_connection|].
  split; [destruct Hshape as [-> | [[t ->] | [t ->]]]; simpl; lia|].
  split; [intros pre post s code H;
          exact (exit_code_is_last request _ pre post s code H Hshape)|].
  split; [|apply handle_error_returns_iff].
  destruct exc as [e|]; [|reflexivity].
  rewrite PailgunHandler_handle_error_spec.
  destruct (exc_truthy e); [|reflexivity].
  destruct (send_stderr w request (format_exc e));
    eexists; split; reflexivity.
Qed.

(** X6.  For every handler class, [handle_request] runs [setup], then
    [handle], then [finish], and [finish] runs whatever [handle] did; the
    outcome is the exception of [finish] if it raised, and the outcome of
    [handle] otherwise.  If [setup] raises, neither [handle] nor [finish]
    runs. *)
Theorem handle_request_always_finishes
    (cls : HandlerClass) (w : World) (request : Socket) :
  match outcome (setup cls w request) with
  | Ret _ =>
      PailgunHandlerBase.handle_request cls w request
      = (trace (setup cls w request) ++ trace (handle cls w request)
           ++ trace (finish cls w request),
         match outcome (finish cls w request) with
         | Ret _ => outcome (handle cls w request)
         | Raise e => Raise e
         end)
  | Raise e =>
      PailgunHandlerBase.handle_request cls w request
      = (trace (setup cls w request), Raise e)
  end.
Proof.
  unfold PailgunHandlerBase.handle_request. unfold_M.
  destruct (setup cls w request) as [ts [[]|e]]; simpl; [|reflexivity].
  destruct (handle cls w request) as [th rh].
  destruct (finish cls w request) as [tf [[]|e]]; reflexivity.
Qed.

(** ** Further properties of the handler thread *)

(** [handle] acts on its own connection only. *)
Lemma PailgunHandler_handle_own_connection (w : World) (request : Socket) :
  count_ev (foreign_event request)
    (trace (PailgunHandler.handle w request)) = 0.
Proof.
  unfold_handle.
  destruct (parse_request w request) as [[[[wd cmd] args] env]|e];
    [|simpl; rewrite Nat.eqb_refl; reflexivity].
  destruct (env !! "PANTSD_PROFILE") as [[|c path]|];
    destruct (runner_factory w request ("./pants" :: args) env) as [r|e];
    try destruct (runner_run w r);
    cbn [fst app count_ev foreign_event]; rewrite Nat.eqb_refl; reflexivity.
Qed.

(** The trace of a [PailgunHandler] thread: the body of the [try], then
    one of the three ways out. *)
Lemma process_request_thread_tail (w : World) (self : Server)
    (request : Socket) (client_address : Address) :
  RequestHandlerClass self = PailgunHandler.class ->
  exists tail,
    trace (PailgunServer.process_request_thread w self request
             client_address)
    = EvNativeOverrideLogging
        :: trace (try_body w PailgunHandler.class request) ++ tail
    /\ (tail = [EvSockClose request]
        \/ tail = []
        \/ exists e,
             tail = trace (PailgunHandler.handle_error w request (Some e))
                      ++ [EvSockShutdown request; EvSockClose request]).
Proof.
  intros Hcls.
  destruct (outcome (try_body w PailgunHandler.class request))
    as [[]|e] eqn:Ho.
  - exists [EvSockClose request].
    rewrite process_request_thread_returned; rewrite Hcls; auto.
  - destruct (is_Exception e) eqn:He.
    + exists (trace (PailgunHandler.handle_error w request (Some e))
                ++ [EvSockShutdown request; EvSockClose request]).
      rewrite (process_request_thread_caught w self request
                 client_address e); rewrite ?Hcls; eauto.
    + exists [].
      rewrite (process_request_thread_uncaught w self request
                 client_address e); rewrite ?Hcls; auto.
      split; [|auto]. unfold trace at 1. simpl. rewrite app_nil_r.
      reflexivity.
Qed.

(** Counting over the trace of a thread events that neither [handle] nor
    the teardown produces. *)
Lemma process_request_thread_count_0 (w : World) (self : Server)
    (request : Socket) (client_address : Address) (p : event -> bool) :
  RequestHandlerClass self = PailgunHandler.class ->
  count_ev p (trace (PailgunHandler.handle w request)) = 0 ->
  p EvNativeOverrideLogging = false ->
  p EvRequestComplete = false ->
  p (EvSockShutdown request) = false ->
  p (EvSockClose request) = false ->
  (forall e, count_ev p
               (trace (PailgunHandler.handle_error w request (Some e))) = 0) ->
  count_ev p
    (trace (PailgunServer.process_request_thread w self request
              client_address)) = 0.
Proof.
  intros Hcls Hh Hn Hcb Hsd Hcl He.
  destruct (process_request_thread_tail w self request client_address Hcls)
    as (tail & -> & Htail).
  assert (Hb : count_ev p (trace (try_body w PailgunHandler.class request))
               = 0).
  { rewrite try_body_PailgunHandler.
    destruct (outcome (PailgunHandler.handle w request)); simpl;
      rewrite ?count_ev_app, Hh; simpl; rewrite ?Hcb; reflexivity. }
  simpl. rewrite Hn, count_ev_app, Hb. simpl.
  destruct Htail as [-> | [-> | [e ->]]]; simpl;
    rewrite ?count_ev_app, ?He; simpl; rewrite ?Hsd, ?Hcl; reflexivity.
Qed.

(** X7.  The completion callback is invoked exactly once when [handle]
    returned normally, and never for a request whose [handle] raised. *)
Theorem callback_invoked_iff_handle_returned
    (w : World) (self : Server) (request : Socket) (client_address : Address) :
  RequestHandlerClass self = PailgunHandler.class ->
  count_ev is_callback
    (trace (PailgunServer.process_request_thread w self request
              client_address))
  = match outcome (PailgunHandler.handle w request) with
    | Ret _ => 1
    | Raise _ => 0
    end.
Proof.
  intros Hcls.
  destruct (process_request_thread_tail w self request client_address Hcls)
    as (tail & -> & Htail).
  assert (Ht : count_ev is_callback tail = 0).
  { destruct Htail as [-> | [-> | [e ->]]]; try reflexivity.
    rewrite count_ev_app, handle_error_count_0; reflexivity. }
  assert (Hh : count_ev is_callback (trace (PailgunHandler.handle w request))
               = 0).
  { exact (count_ev_excluded is_callback handle_event _
             handle_event_not_callback
             (PailgunHandler_handle_events w request)). }
  simpl. rewrite count_ev_app, Ht, try_body_PailgunHandler.
  destruct (outcome (PailgunHandler.handle w request)); simpl;
    rewrite ?count_ev_app, Hh; reflexivity.
Qed.

Lemma callback_invoked_iff_handle_returned_witness :
  count_ev is_callback
    (trace (PailgunServer.process_request_thread Examples.w_run_raises
              Examples.server 9 Examples.client)) = 0.
Proof.
  exact (callback_invoked_iff_handle_returned Examples.w_run_raises
           Examples.server 9 Examples.client eq_refl).
Defined.

(** X8.  A handler thread acts on its own connection only: it decodes
    from, writes to, shuts down and closes no other socket, and the only
    exit code it ever writes is 1.  It performs no operation of the
    listening side: no bind, listen, select, accept, lock operation or
    thread start. *)
Theorem thread_confined_to_its_connection
    (w : World) (self : Server) (request : Socket) (client_address : Address) :
  RequestHandlerClass self = PailgunHandler.class ->
  count_ev (foreign_event request)
    (trace (PailgunServer.process_request_thread w self request
              client_address)) = 0
  /\ count_ev listener_event
       (trace (PailgunServer.process_request_thread w self request
                 client_address)) = 0.
Proof.
  intros Hcls. split.
  - apply process_request_thread_count_0; try assumption;
      try (simpl; rewrite ?Nat.eqb_refl; reflexivity).
    + apply PailgunHandler_handle_own_connection.
    + intros e. apply handle_error_own_connection.
  - apply process_request_thread_count_0; try assumption;
      try reflexivity.
    + apply (count_ev_excluded listener_event handle_event);
        [intros ev; destruct ev; simpl; congruence
        | apply PailgunHandler_handle_events].
    + intros e. apply handle_error_count_0; reflexivity.
Qed.

Lemma thread_confined_to_its_connection_witness :
  count_ev (foreign_event 9)
    (trace (PailgunServer.process_request_thread
              Examples.w_callback_raises Examples.server 9
              Examples.client)) = 0.
Proof.
  exact (proj1 (thread_confined_to_its_connection
                  Examples.w_callback_raises Examples.server 9
                  Examples.client eq_refl)).
Defined.

(** X9.  A handler thread returns normally exactly when the request and
    the callback succeeded, or when they raised an [Exception] and every
    write of the error report returned (the stderr text, which is written
    when the truth value of the exception is true, and the exit code): a
    reported failure is swallowed. *)
Theorem thread_returns_iff_succeeded_or_reported
    (w : World) (self : Server) (request : Socket) (client_address : Address) :
  RequestHandlerClass self = PailgunHandler.class ->
  outcome (PailgunServer.process_request_thread w self request
             client_address) = Ret tt
  <-> outcome (try_body w PailgunHandler.class request) = Ret tt
      \/ exists e,
           outcome (try_body w PailgunHandler.class request) = Raise e
           /\ is_Exception e = true
           /\ (exc_truthy e = true ->
               send_stderr w request (format_exc e) = None)
           /\ send_exit_with_code w request 1 = None.
Proof.
  intros Hcls.
  destruct (outcome (try_body w PailgunHandler.class request))
    as [[]|e] eqn:Ho.
  - rewrite process_request_thread_returned; rewrite Hcls; auto.
    split; auto.
  - destruct (is_Exception e) eqn:He.
    + rewrite (process_request_thread_caught w self request
                 client_address e); rewrite ?Hcls; auto.
      unfold outcome at 1. simpl.
      rewrite (handle_error_returns_iff w request (Some e)). split.
      * intros [Hs Hx]. right. exists e. auto.
      * intros [H | (e' & H & _ & Hs & Hx)]; [discriminate|].
        injection H as ->. auto.
    + rewrite (process_request_thread_uncaught w self request
                 client_address e); rewrite ?Hcls; auto.
      unfold outcome at 1. simpl. split; [discriminate|].
      intros [H | (e' & H & He' & _)]; [discriminate|].
      injection H as ->. congruence.
Qed.

Lemma thread_returns_iff_succeeded_or_reported_witness :
  outcome (PailgunServer.process_request_thread Examples.w_run_raises
             Examples.server 9 Examples.client) = Ret tt.
Proof.
  apply (thread_returns_iff_succeeded_or_reported Examples.w_run_raises
           Examples.server 9 Examples.client eq_refl).
  right. exists Examples.value_error. repeat split.
Defined.

(** ** Further properties of the server *)

(** X10.  When bind and listen succeed, the constructor sets
    SO_REUSEADDR before binding, binds the address it was given, and
    records the address and the port the socket reports afterwards: the
    server's port is the port of its recorded address (this is how a
    request for port 0 is resolved).  It does not close the socket. *)
Theorem init_records_the_bound_port
    (w : World) (address : Address) (handler_class : option HandlerClass) :
  sock_bind w (new_socket w) address = None ->
  sock_listen w (new_socket w) = None ->
  exists self,
    PailgunServer.__init__ w address handler_class true
    = ([EvSocketCreate (new_socket w); EvSetReuseAddr (new_socket w);
        EvBind (new_socket w) address;
        EvGetSockName (new_socket w); EvGetSockName (new_socket w);
        EvListen (new_socket w) 5],
       Ret self)
    /\ server_address self = getsockname w (new_socket w)
    /\ server_port self = Some (snd (server_address self)).
Proof.
  intros Hb Hl.
  unfold PailgunServer.__init__, PailgunServer.server_bind,
    SocketServer.server_bind, SocketServer.server_activate,
    SocketServer.server_close.
  unfold_M. simpl. rewrite Hb. simpl. rewrite Hl. simpl.
  eexists. split; [reflexivity|]. split; reflexivity.
Qed.

Lemma init_records_the_bound_port_witness :
  exists self,
    outcome (PailgunServer.__init__ Examples.w_ok ("127.0.0.1", 0%Z) None
               true) = Ret self
    /\ server_port self = Some 4242%Z.
Proof.
  destruct (init_records_the_bound_port Examples.w_ok ("127.0.0.1", 0%Z)
              None eq_refl eq_refl) as (self & Heq & Ha & Hp).
  exists self. rewrite Heq. split; [reflexivity|].
  rewrite Hp, Ha. reflexivity.
Defined.

(** X11.  Every server the constructor returns, bound or not, listens on
    the socket it created, polls with the class timeout of 0.05s, uses
    the given handler class or [PailgunHandler] when none is given, and
    dispatches each request by starting one daemon thread named
    [PailgunRequestThread]; with [bind_and_activate] false it has done
    nothing but create the socket, and its port is still unset. *)
Theorem constructed_server_invariants
    (w : World) (address : Address) (handler_class : option HandlerClass)
    (bind_and_activate : bool) (self : Server) :
  outcome (PailgunServer.__init__ w address handler_class bind_and_activate)
  = Ret self ->
  socket self = new_socket w
  /\ timeout self = Some (5 # 100)%Q
  /\ RequestHandlerClass self = default PailgunHandler.class handler_class
  /\ (forall request client_address,
        trace (PailgunServer.process_request w self request client_address)
        = [EvThreadStart "PailgunRequestThread" true request
             client_address])
  /\ (bind_and_activate = false ->
      server_port self = None
      /\ server_address self = address
      /\ trace (PailgunServer.__init__ w address handler_class false)
         = [EvSocketCreate (new_socket w)]).
Proof.
  unfold PailgunServer.__init__, PailgunServer.server_bind,
    SocketServer.server_bind, SocketServer.server_activate,
    SocketServer.server_close.
  unfold_M. simpl.
  destruct bind_and_activate; simpl.
  - destruct (sock_bind w (new_socket w) address) as [e|]; simpl.
    + destruct (is_Exception e); simpl; discriminate.
    + destruct (sock_listen w (new_socket w)) as [e|]; simpl.
      * destruct (is_Exception e); simpl; discriminate.
      * intros H. injection H as <-. simpl.
        repeat split; try reflexivity; discriminate.
  - intros H. injection H as <-. simpl. repeat split; reflexivity.
Qed.

Lemma constructed_server_invariants_witness :
  trace (PailgunServer.process_request Examples.w_ok Examples.server 9
           Examples.client)
  = [EvThreadStart "PailgunRequestThread" true 9 Examples.client].
Proof.
  exact (proj1 (proj2 (proj2 (proj2
           (constructed_server_invariants Examples.w_ok ("127.0.0.1", 0%Z)
              None true Examples.server eq_refl)))) 9 Examples.client).
Defined.

(** X12.  If bind or listen is cut short by an exception that is not an
    instance of [Exception] (a [KeyboardInterrupt], say), the constructor
    propagates it without closing the socket it created. *)
Theorem init_interrupted_leaves_socket_open
    (w : World) (address : Address) (handler_class : option HandlerClass)
    (e : PyExc) :
  sock_bind w (new_socket w) address = Some e
  \/ (sock_bind w (new_socket w) address = None
      /\ sock_listen w (new_socket w) = Some e) ->
  is_Exception e = false ->
  outcome (PailgunServer.__init__ w address handler_class true) = Raise e
  /\ count_ev (is_close (new_socket w))
       (trace (PailgunServer.__init__ w address handler_class true)) = 0.
Proof.
  intros Hfail He.
  unfold PailgunServer.__init__, PailgunServer.server_bind,
    SocketServer.server_bind, SocketServer.server_activate,
    SocketServer.server_close.
  unfold_M. simpl.
  destruct Hfail as [Hb | [Hb Hl]]; rewrite Hb; simpl;
    rewrite ?Hl; simpl; rewrite He; simpl; split; reflexivity.
Qed.

Lemma init_interrupted_leaves_socket_open_witness :
  PailgunServer.__init__ MoreExamples.w_bind_interrupted
    ("127.0.0.1", 0%Z) None true
  = ([EvSocketCreate 3; EvSetReuseAddr 3; EvBind 3 ("127.0.0.1", 0%Z)],
     Raise Examples.keyboard_interrupt).
Proof.
  pose proof (init_interrupted_leaves_socket_open
                MoreExamples.w_bind_interrupted ("127.0.0.1", 0%Z) None
                Examples.keyboard_interrupt (or_introl eq_refl) eq_refl)
    as [Ho _].
  rewrite (M_eta (PailgunServer.__init__ _ _ _ _)), Ho. reflexivity.
Defined.

(** The accept+dispatch step starts by accepting, and does not accept
    again. *)
Lemma accept_and_dispatch_shape (w : World) (self : Server) :
  exists rest,
    trace (accept_and_dispatch w self) = EvAccept (socket self) :: rest
    /\ count_ev is_accept rest = 0
    /\ count_ev is_lock_op rest = 0.
Proof.
  unfold accept_and_dispatch, SocketServer._handle_request_noblock,
    SocketServer.get_request, SocketServer.verify_request,
    PailgunServer.process_request, SocketServer.handle_error.
  unfold call.
  destruct (sock_accept w (socket self)) as [[request client]|e];
    unfold try_except, try_except_else, call_.
  - destruct (thread_start w) as [e|];
      [|eexists; split; [reflexivity | split; reflexivity]].
    cbn beta. destruct (is_Exception e); rewrite shutdown_request_spec;
      eexists; (split; [reflexivity | split; reflexivity]).
  - destruct (is_socket_error e);
      eexists; (split; [reflexivity | split; reflexivity]).
Qed.

Lemma count_ev_le (p q : event -> bool) (tr : list event) :
  (forall ev, p ev = true -> q ev = true) ->
  count_ev p tr <= count_ev q tr.
Proof.
  intros Hpq. induction tr as [|ev tr IH]; simpl; [lia|].
  destruct (p ev) eqn:Hp; [rewrite (Hpq ev Hp)|destruct (q ev)]; simpl; lia.
Qed.

(** The three shapes of a call of [handle_request]. *)
Lemma handle_request_shapes (w : World) (self : Server) :
  (exists e,
     safe_select w (socket self) (effective_timeout w self) = Raise e
     /\ PailgunServer.handle_request w self
        = ([EvGetTimeout (socket self);
            EvSelect (socket self) (effective_timeout w self)], Raise e))
  \/ (exists fd_sets,
        safe_select w (socket self) (effective_timeout w self) = Ret fd_sets
        /\ py_not (fd_sets.1.1) = true
        /\ PailgunServer.handle_request w self
           = ([EvGetTimeout (socket self);
               EvSelect (socket self) (effective_timeout w self)], Ret tt))
  \/ (exists fd_sets rest,
        safe_select w (socket self) (effective_timeout w self) = Ret fd_sets
        /\ py_not (fd_sets.1.1) = false
        /\ trace (PailgunServer.handle_request w self)
           = [EvGetTimeout (socket self);
              EvSelect (socket self) (effective_timeout w self);
              EvLockAcquire; EvAccept (socket self)]
             ++ rest ++ [EvLockRelease]
        /\ count_ev is_accept rest = 0
        /\ count_ev is_lock_op rest = 0).
Proof.
  rewrite handle_request_unfold. unfold call.
  destruct (safe_select w (socket self) (effective_timeout w self))
    as [fd_sets|e] eqn:Hsel.
  - unfold emit, mbind, M_bind.
    destruct (py_not (fd_sets.1.1)) eqn:Hready.
    + right. left. exists fd_sets. auto.
    + right. right.
      destruct (accept_and_dispatch_shape w self) as (rest & Hr & Ha & Hl).
      exists fd_sets, rest. rewrite with_lifecycle_lock_spec, Hr.
      repeat split; auto.
  - left. exists e. auto.
Qed.

(** X13.  In every call of [handle_request] the lifecycle lock is
    released as often as it is acquired, at most once; a connection is
    accepted only while the lock is held (after the acquire and before the
    release), and whenever the lock is taken exactly one accept is made
    under it. *)
Theorem handle_request_lock_discipline (w : World) (self : Server) :
  count_ev is_acquire (trace (PailgunServer.handle_request w self))
  = count_ev is_release (trace (PailgunServer.handle_request w self))
  /\ count_ev is_accept (trace (PailgunServer.handle_request w self))
     = count_ev is_acquire (trace (PailgunServer.handle_request w self))
  /\ count_ev is_acquire (trace (PailgunServer.handle_request w self)) <= 1
  /\ (forall pre post fd,
        trace (PailgunServer.handle_request w self)
        = pre ++ EvAccept fd :: post ->
        count_ev is_acquire pre = 1 /\ count_ev is_release pre = 0
        /\ count_ev is_release post = 1).
Proof.
  destruct (handle_request_shapes w self)
    as [(e & _ & ->) | [(fds & _ & _ & ->) | (fds & rest & _ & _ & -> & Ha & Hl)]].
  - split; [reflexivity|]. split; [reflexivity|]. split; [simpl; lia|].
    intros [|x [|y [|z pre]]] post fd H; simpl in H; try discriminate H;
      injection H as; destruct pre; discriminate.
  - split; [reflexivity|]. split; [reflexivity|]. split; [simpl; lia|].
    intros [|x [|y [|z pre]]] post fd H; simpl in H; try discriminate H;
      injection H as; destruct pre; discriminate.
  - assert (Hacq : count_ev is_acquire rest = 0).
    { pose proof (count_ev_le is_acquire is_lock_op rest) as H.
      assert (count_ev is_acquire rest <= count_ev is_lock_op rest)
        by (apply H; intros ev; destruct ev; simpl; congruence).
      lia. }
    assert (Hrel : count_ev is_release rest = 0).
    { pose proof (count_ev_le is_release is_lock_op rest) as H.
      assert (count_ev is_release rest <= count_ev is_lock_op rest)
        by (apply H; intros ev; destruct ev; simpl; congruence).
      lia. }
    simpl. rewrite !count_ev_app, Hacq, Hrel, Ha. simpl.
    split; [reflexivity|]. split; [reflexivity|]. split; [lia|].
    intros [|x [|y [|z [|u pre]]]] post fd H; simpl in H;
      try discriminate H.
    + injection H as <- <- <- _ <-.
      rewrite count_ev_app, Hrel. split; [|split]; reflexivity.
    + injection H as _ _ _ _ H.
      apply (f_equal (count_ev is_accept)) in H.
      rewrite !count_ev_app, Ha in H. simpl in H. lia.
Qed.

(** X14.  [handle_request] takes the lock exactly when [select] reports
    the server readable.  When [select] raises, the exception propagates
    and nothing else is done: no lock is taken, nothing is accepted and no
    thread is started. *)
Theorem handle_request_locks_iff_readable (w : World) (self : Server) :
  (count_ev is_acquire (trace (PailgunServer.handle_request w self)) = 1
   <-> exists fd_sets,
         safe_select w (socket self) (effective_timeout w self) = Ret fd_sets
         /\ py_not (fd_sets.1.1) = false)
  /\ (forall e,
        safe_select w (socket self) (effective_timeout w self) = Raise e ->
        PailgunServer.handle_request w self
        = ([EvGetTimeout (socket self);
            EvSelect (socket self) (effective_timeout w self)], Raise e)).
Proof.
  destruct (handle_request_shapes w self)
    as [(e & Hs & Heq) | [(fds & Hs & Hr & Heq)
                         | (fds & rest & Hs & Hr & Heq & Ha & Hl)]];
    rewrite ?Heq, Hs.
  - split.
    + split; [discriminate|]. intros (fds & H & _). discriminate.
    + intros e' H. injection H as ->. reflexivity.
  - split; [|discriminate].
    split; [discriminate|]. intros (fds' & H & Hr').
    injection H as ->. congruence.
  - split; [|discriminate].
    split; [intros _; exists fds; auto|]. intros _.
    assert (Hacq : count_ev is_acquire rest <= count_ev is_lock_op rest)
      by (apply count_ev_le; intros ev; destruct ev; simpl; congruence).
    simpl. rewrite !count_ev_app. simpl. lia.
Qed.

Lemma Qle_bool_false_le (a b : Q) : Qle_bool a b = false -> (b <= a)%Q.
Proof.
  intros H. apply Qlt_le_weak, Qnot_le_lt. intros Hle.
  apply Qle_bool_iff in Hle. congruence.
Qed.

(** X15.  The timeout [handle_request] passes to [select] is never longer
    than the socket's own timeout nor than the server's, whichever of the
    two are set, and it is one of them; [select] is given no timeout
    only when neither is set. *)
Theorem effective_timeout_bounds (w : World) (self : Server) :
  (forall t, effective_timeout w self = Some t ->
     (forall s, gettimeout w (socket self) = Some s -> (t <= s)%Q)
     /\ (forall c, timeout self = Some c -> (t <= c)%Q)
     /\ (gettimeout w (socket self) = Some t \/ timeout self = Some t))
  /\ (effective_timeout w self = None
      <-> gettimeout w (socket self) = None /\ timeout self = None).
Proof.
  unfold effective_timeout, py_min.
  destruct (gettimeout w (socket self)) as [s|];
    destruct (timeout self) as [c|]; split;
    try (split; [discriminate | intros [H1 H2]; discriminate]);
    try (split; auto; fail).
  - intros t Ht.
    destruct (Qle_bool s c) eqn:Hle; injection Ht as <-;
      (split; [intros s' H; injection H as <-
              | split; [intros c' H; injection H as <-|auto]]).
    + apply Qle_refl.
    + apply Qle_bool_iff. assumption.
    + apply Qle_bool_false_le. assumption.
    + apply Qle_refl.
  - intros t Ht. injection Ht as <-.
    split; [intros s' H; injection H as <-; apply Qle_refl|].
    split; [discriminate | auto].
  - intros t Ht. injection Ht as <-.
    split; [discriminate|].
    split; [intros c' H; injection H as <-; apply Qle_refl | auto].
  - discriminate.
Qed.

(** ** Properties of the run helpers *)

(** X16.  A relative path is placed under the [{chroot}] placeholder; an
    absolute path is returned unchanged, outside it.  Distinct paths are
    never mapped to the same path. *)
Theorem in_chroot_relative_and_absolute :
  (forall relpath,
     starts_with_sep relpath = false ->
     RunHelper._in_chroot relpath = "{chroot}/" +:+ relpath)
  /\ (forall relpath,
        starts_with_sep relpath = true ->
        RunHelper._in_chroot relpath = relpath)
  /\ (forall a b,
        RunHelper._in_chroot a = RunHelper._in_chroot b -> a = b).
Proof.
  assert (Hrel : forall relpath, starts_with_sep relpath = false ->
                 RunHelper._in_chroot relpath = "{chroot}/" +:+ relpath).
  { intros relpath H. unfold RunHelper._in_chroot, posixpath_join.
    rewrite H. reflexivity. }
  assert (Habs : forall relpath, starts_with_sep relpath = true ->
                 RunHelper._in_chroot relpath = relpath).
  { intros relpath H. unfold RunHelper._in_chroot, posixpath_join.
    rewrite H. reflexivity. }
  split; [exact Hrel|]. split; [exact Habs|].
  intros a b.
  destruct (starts_with_sep a) eqn:Ha; destruct (starts_with_sep b) eqn:Hb;
    rewrite ?(Hrel a Ha), ?(Habs a Ha), ?(Hrel b Hb), ?(Habs b Hb).
  - auto.
  - intros ->. discriminate Ha.
  - intros <-. discriminate Hb.
  - simpl. intros H. injection H as H. exact H.
Qed.

(** X17.  Outside the sandbox every in-repo source root comes before all
    the chrooted copies, each copy at the position of its root in the
    second half; inside the sandbox only the chrooted copies are listed,
    in the order of the roots. *)
Theorem source_roots_in_repo_first
    (sources_source_roots : list string) (i : nat) (root : string) :
  sources_source_roots !! i = Some root ->
  RunHelper.source_roots false sources_source_roots !! i = Some root
  /\ RunHelper.source_roots false sources_source_roots
       !! (length sources_source_roots + i)
     = Some (RunHelper._in_chroot root)
  /\ length (RunHelper.source_roots false sources_source_roots)
     = 2 * length sources_source_roots
  /\ RunHelper.source_roots true sources_source_roots !! i
     = Some (RunHelper._in_chroot root)
  /\ length (RunHelper.source_roots true sources_source_roots)
     = length sources_source_roots.
Proof.
  intros Hi. unfold RunHelper.source_roots. simpl.
  repeat split.
  - apply lookup_app_l_Some. exact Hi.
  - rewrite lookup_app_r by lia.
    replace (length sources_source_roots + i - length sources_source_roots)
      with i by lia.
    rewrite list_lookup_fmap, Hi. reflexivity.
  - rewrite length_app, length_fmap. lia.
  - rewrite list_lookup_fmap, Hi. reflexivity.
  - apply length_fmap.
Qed.

Lemma source_roots_in_repo_first_witness :
  RunHelper.source_roots false ["src/python"; "src/rust"] !! 1
  = Some "src/rust"
  /\ RunHelper.source_roots false ["src/python"; "src/rust"] !! 3
     = Some "{chroot}/src/rust".
Proof.
  pose proof (source_roots_in_repo_first ["src/python"; "src/rust"] 1
                "src/rust" eq_refl) as (H1 & H2 & _).
  split; [exact H1 | exact H2].
Defined.

(** X18.  The run request runs the pex at its path in the chroot, with
    [PEX_EXTRA_SYS_PATH] set to the source roots joined by the path
    separator, whatever value the pex environment gave that variable;
    every other variable of the pex environment is passed unchanged. *)
Theorem run_request_environment
    {Digest : Type} (run_in_sandbox : bool) (merged_digest : Digest)
    (argv0 : string) (environment_dict : gmap string string)
    (sources_source_roots : list string) :
  let request :=
    RunHelper._create_python_source_run_request run_in_sandbox
      merged_digest argv0 environment_dict sources_source_roots in
  RunHelper.args request = [RunHelper._in_chroot argv0]
  /\ RunHelper.digest request = merged_digest
  /\ RunHelper.extra_env request !! "PEX_EXTRA_SYS_PATH"
     = Some (join pathsep
               (RunHelper.source_roots run_in_sandbox sources_source_roots))
  /\ (forall key,
        key <> "PEX_EXTRA_SYS_PATH" ->
        RunHelper.extra_env request !! key = environment_dict !! key).
Proof.
  simpl. repeat split.
  - apply lookup_insert_eq.
  - intros key Hkey. apply lookup_insert_ne. congruence.
Qed.

(** X19.  The debug-adapter request needs a [PEX_PATH] in the regular
    request's environment and a main: without [PEX_PATH] the helper
    raises [KeyError], also when the main is missing too; with
    [PEX_PATH] but neither a console script nor an entry point, the
    assertion fails.  In every other case it returns a request. *)
Theorem dap_request_failures
    {Digest Main : Type} (regular_run_request : RunHelper.RunRequest Digest)
    (merged_digest : Digest) (debugpy_pex_name : string)
    (console_script entry_point_val : option Main)
    (get_args : Main -> list string) :
  let dap :=
    RunHelper._create_python_source_run_dap_request regular_run_request
      merged_digest debugpy_pex_name console_script entry_point_val
      get_args in
  (RunHelper.extra_env regular_run_request !! "PEX_PATH" = None ->
   dap = Raise (RunHelper.key_error "PEX_PATH"))
  /\ (is_Some (RunHelper.extra_env regular_run_request !! "PEX_PATH") ->
      console_script = None -> entry_point_val = None ->
      dap = Raise RunHelper.assertion_error)
  /\ ((exists request, dap = Ret request)
      <-> is_Some (RunHelper.extra_env regular_run_request !! "PEX_PATH")
          /\ (is_Some console_script \/ is_Some entry_point_val)).
Proof.
  unfold RunHelper._create_python_source_run_dap_request. simpl.
  destruct (RunHelper.extra_env regular_run_request !! "PEX_PATH")
    as [pex_path|].
  - split; [discriminate|]. split.
    + intros _ -> ->. reflexivity.
    + destruct console_script as [c|]; [|destruct entry_point_val as [m|]].
      * split; [intros _; split; eauto | intros _; eauto].
      * split; [intros _; split; eauto | intros _; eauto].
      * split; [intros [r H]; discriminate|].
        intros [_ [[x H] | [x H]]]; discriminate.
  - split; [reflexivity|]. split.
    + intros [x H]. discriminate.
    + split; [intros [r H]; discriminate | intros [[x H] _]; discriminate].
Qed.

(** X20.  A debug-adapter request that is returned runs the regular
    command followed by the launcher at its chroot path and by the
    debugpy arguments for the main, where a console script, when given,
    takes precedence over the entry point.  Its environment is the
    regular one except for three variables: [PEX_PATH] has the chroot path
    of the debugpy pex appended after a path separator,
    [PEX_INTERPRETER] is [1] and [PANTS_CHROOT] is [{chroot}]. *)
Theorem dap_request_contents
    {Digest Main : Type} (regular_run_request : RunHelper.RunRequest Digest)
    (merged_digest : Digest) (debugpy_pex_name : string)
    (console_script entry_point_val : option Main)
    (get_args : Main -> list string)
    (request : RunHelper.RunRequest Digest) :
  RunHelper._create_python_source_run_dap_request regular_run_request
    merged_digest debugpy_pex_name console_script entry_point_val get_args
  = Ret request ->
  exists pex_path main,
    RunHelper.extra_env regular_run_request !! "PEX_PATH" = Some pex_path
    /\ Some main = match console_script with
                   | Some c => Some c
                   | None => entry_point_val
                   end
    /\ RunHelper.digest request = merged_digest
    /\ RunHelper.args request
       = RunHelper.args regular_run_request
         ++ ["{chroot}/__debugpy_launcher.py"] ++ get_args main
    /\ RunHelper.extra_env request !! "PEX_PATH"
       = Some (pex_path +:+ ":" +:+ RunHelper._in_chroot debugpy_pex_name)
    /\ RunHelper.extra_env request !! "PEX_INTERPRETER" = Some "1"
    /\ RunHelper.extra_env request !! "PANTS_CHROOT" = Some "{chroot}"
    /\ (forall key,
          key <> "PEX_PATH" -> key <> "PEX_INTERPRETER" ->
          key <> "PANTS_CHROOT" ->
          RunHelper.extra_env request !! key
          = RunHelper.extra_env regular_run_request !! key).
Proof.
  unfold RunHelper._create_python_source_run_dap_request. simpl.
  destruct (RunHelper.extra_env regular_run_request !! "PEX_PATH")
    as [pex_path|] eqn:Hp; [|discriminate].
  destruct (match console_script with
            | Some c => Some c
            | None => entry_point_val
            end) as [main|] eqn:Hm; [|discriminate].
  intros H. injection H as <-. exists pex_path, main. simpl.
  split; [reflexivity|]. split; [reflexivity|]. split; [reflexivity|].
  split; [reflexivity|].
  split; [rewrite !lookup_insert_ne by discriminate;
          apply lookup_insert_eq|].
  split; [rewrite lookup_insert_ne by discriminate;
          apply lookup_insert_eq|].
  split; [apply lookup_insert_eq|].
  intros key H1 H2 H3.
  rewrite !lookup_insert_ne by congruence. reflexivity.
Qed.

Lemma dap_request_contents_witness :
  match
    RunHelper._create_python_source_run_dap_request
      (RunHelper.mkRunRequest 1 ["{chroot}/app.pex"]
         {["PEX_PATH" := "{chroot}/local_dists.pex"]})
      2 "debugpy.pex" (None : option string) (Some "app.main")
      (fun main => ["--listen"; "127.0.0.1:5678"; "-c"; main])
  with
  | Ret request =>
      RunHelper.args request
      = ["{chroot}/app.pex"; "{chroot}/__debugpy_launcher.py";
         "--listen"; "127.0.0.1:5678"; "-c"; "app.main"]
      /\ RunHelper.extra_env request !! "PEX_PATH"
         = Some "{chroot}/local_dists.pex:{chroot}/debugpy.pex"
  | Raise _ => False
  end.
Proof.
  destruct (RunHelper._create_python_source_run_dap_request
              (RunHelper.mkRunRequest 1 ["{chroot}/app.pex"]
                 {["PEX_PATH" := "{chroot}/local_dists.pex"]})
              2 "debugpy.pex" (None : option string) (Some "app.main")
              (fun main => ["--listen"; "127.0.0.1:5678"; "-c"; main]))
    as [request|e] eqn:H; [|vm_compute in H; discriminate H].
  destruct (dap_request_contents _ _ _ _ _ _ request H)
    as (pex_path & main & Hp & Hm & _ & Ha & He & _).
  vm_compute in Hp. injection Hp as <-. injection Hm as ->.
  split; [exact Ha | exact He].
Defined.

Lemma replace_dots_spec (s : string) :
  contains_dot (replace_dots s) = false
  /\ String.length (replace_dots s) = String.length s
  /\ (contains_dot s = false -> replace_dots s = s).
Proof.
  induction s as [|c s (IH1 & IH2 & IH3)]; [repeat split|].
  simpl. destruct (Ascii.eqb c dot) eqn:Hc; simpl.
  - rewrite IH1, IH2. repeat split. discriminate.
  - rewrite Hc, IH1, IH2. repeat split. intros H. rewrite IH3; auto.
Qed.

Lemma replace_dots_get (s : string) (i : nat) (c : Ascii.ascii) :
  String.get i s = Some c ->
  String.get i (replace_dots s)
  = Some (if Ascii.eqb c dot then underscore else c).
Proof.
  revert i. induction s as [|c' s IH]; intros i H; [discriminate H|].
  destruct i as [|i]; simpl in *.
  - injection H as ->. reflexivity.
  - apply IH. exact H.
Qed.

(** X21.  The pex is named after the generated name of the address, with
    every dot replaced by an underscore and every other character kept,
    position by position (so the length is the same, no dot is left, and
    a name without dots is unchanged); when the address has no generated
    name, or an empty one, it is named after the target, as is. *)
Theorem pex_filename_of_address
    (generated_name : option string) (target_name : string) :
  String dot EmptyString = "."
  /\ String underscore EmptyString = "_"
  /\ match generated_name with
     | None | Some EmptyString =>
         RunHelper.pex_filename generated_name target_name = target_name
     | Some name =>
         (forall i c,
            String.get i name = Some c ->
            String.get i (RunHelper.pex_filename generated_name target_name)
            = Some (if Ascii.eqb c dot then underscore else c))
         /\ String.length
              (RunHelper.pex_filename generated_name target_name)
            = String.length name
         /\ contains_dot
              (RunHelper.pex_filename generated_name target_name) = false
         /\ (contains_dot name = false ->
             RunHelper.pex_filename generated_name target_name = name)
     end.
Proof.
  split; [reflexivity|]. split; [reflexivity|].
  destruct generated_name as [[|c name]|]; try reflexivity.
  unfold RunHelper.pex_filename.
  destruct (replace_dots_spec (String c name)) as (H1 & H2 & H3).
  split; [intros i c' H; apply replace_dots_get; exact H|].
  split; [exact H2|]. split; [exact H1 | exact H3].
Qed.
